(** * Castor: the to-do and reminder store ([todos.py])

    A shallow embedding of the entity layer ([Person], [Task], [Reminder])
    and of the reminder scheduler ([Reminder.update_reminders]) over an
    explicit model of the TinyDB tables, followed by the properties of the
    specification that concern them.

    Conventions of the embedding.
    - The three TinyDB tables are association lists from document id to
      document, in the table's iteration order; ids are unique in a
      well-formed table ([wf_table]).
    - A document is a typed record holding the fields its [insert] site
      writes; a query such as [Query().name == v] is evaluated on the
      dictionary the insert site builds ([Task_document] and the like), so a
      query on a key that the document does not have matches nothing.
    - Python's [None]-or-value arguments are [option]s; truthiness is
      written out ([truthy]).
    - [ToDoException] is the only exception the module raises; an operation
      returns the store it leaves behind together with a [result].
    - [dateutil.parser.parse(..).astimezone(..)] belongs to external
      libraries: it is the method of the class [Dateutil]. The clock
      ([datetime.datetime.now(..)]) is an argument of the scheduler.
    - Strings are strings of bytes; [lower] and [isspace] act on the ASCII
      letters and blanks. *)

From Stdlib Require Import ZArith String Ascii List Lia Bool.
From stdpp Require Import base option list gmap strings pretty.

Open Scope Z_scope.

(** ** Strings *)

(** [str.isspace] on the ASCII range: TAB, LF, VT, FF, CR, FS, GS, RS, US
    and the blank. *)
Definition isspace (c : ascii) : bool :=
  let n := nat_of_ascii c in
  ((9 <=? n)%nat && (n <=? 13)%nat) || ((28 <=? n)%nat && (n <=? 32)%nat).

Fixpoint lstrip (s : string) : string :=
  match s with
  | EmptyString => EmptyString
  | String c s' => if isspace c then lstrip s' else s
  end.

Fixpoint rstrip (s : string) : string :=
  match s with
  | EmptyString => EmptyString
  | String c s' =>
      match rstrip s' with
      | EmptyString => if isspace c then EmptyString else String c EmptyString
      | t => String c t
      end
  end.

Definition strip (s : string) : string := rstrip (lstrip s).

Definition lower_char (c : ascii) : ascii :=
  let n := nat_of_ascii c in
  if ((65 <=? n)%nat && (n <=? 90)%nat)%bool then ascii_of_nat (n + 32) else c.

Fixpoint lower (s : string) : string :=
  match s with
  | EmptyString => EmptyString
  | String c s' => String (lower_char c) (lower s')
  end.

(** [s.replace(" ", "_")] *)
Fixpoint replace_blank (s : string) : string :=
  match s with
  | EmptyString => EmptyString
  | String c s' =>
      String (if Ascii.eqb c " "%char then "_"%char else c) (replace_blank s')
  end.

(** [format_name(name)]: [name.strip().lower().replace(" ", "_")]. *)
Definition format_name (name : string) : string :=
  replace_blank (lower (strip name)).

(** Python truthiness of an optional string: neither [None] nor empty. *)
Definition truthy (o : option string) : bool :=
  match o with
  | Some s => negb (String.eqb s "")
  | None => false
  end.

(** Truthiness of an optional integer argument ([if task_id:]). *)
Definition truthy_id (o : option nat) : bool :=
  match o with
  | Some n => negb (Nat.eqb n 0)
  | None => false
  end.

(** ** Time *)

(** A timezone-aware [datetime]: the wall-clock reading in microseconds
    since 1970-01-01 00:00:00 of its own zone offset, and that offset.
    Python compares aware datetimes by instant, adds a [timedelta] to the
    wall clock leaving the offset as it is, and prints the wall clock. The
    range check of [datetime] (years 1 to 9999) is not modelled. *)
Record datetime := mk_datetime { wall : Z; utcoffset : Z }.

Definition SECOND : Z := 1000000.
Definition DAY : Z := 86400 * SECOND.

Definition instant (d : datetime) : Z := wall d - utcoffset d.

(** [a < b] on aware datetimes. *)
Definition datetime_lt (a b : datetime) : bool := instant a <? instant b.

(** [d + datetime.timedelta(days=n)] *)
Definition add_days (d : datetime) (n : Z) : datetime :=
  {| wall := wall d + n * DAY; utcoffset := utcoffset d |}.

(** Civil date of a day number (days since 1970-01-01), proleptic
    Gregorian calendar. *)
Definition civil_from_days (z : Z) : Z * Z * Z :=
  let z := z + 719468 in
  let era := z / 146097 in
  let doe := z - era * 146097 in
  let yoe := (doe - doe / 1460 + doe / 36524 - doe / 146096) / 365 in
  let y := yoe + era * 400 in
  let doy := doe - (365 * yoe + yoe / 4 - yoe / 100) in
  let mp := (5 * doy + 2) / 153 in
  let d := doy - (153 * mp + 2) / 5 + 1 in
  let m := if mp <? 10 then mp + 3 else mp - 9 in
  (if m <=? 2 then y + 1 else y, m, d).

Definition days_from_civil (y m d : Z) : Z :=
  let y := if m <=? 2 then y - 1 else y in
  let era := y / 400 in
  let yoe := y - era * 400 in
  let doy := (153 * (if 2 <? m then m - 3 else m + 9) + 2) / 5 + d - 1 in
  let doe := yoe * 365 + yoe / 4 - yoe / 100 + doy in
  era * 146097 + doe - 719468.

Definition digit (n : Z) : ascii := ascii_of_nat (48 + Z.to_nat (n mod 10)).

Definition pad2 (n : Z) : string :=
  String (digit (n / 10)) (String (digit n) EmptyString).

Definition pad4 (n : Z) : string :=
  String (digit (n / 1000)) (String (digit (n / 100)) (pad2 n)).

(** The two patterns of the module: [DATE_FMT = "%Y-%m-%d"] and
    [TIME_FMT = "%Y-%m-%d %X"] ([%X] is [HH:MM:SS]). *)
Inductive format := DATE_FMT | TIME_FMT.

Definition strftime_date (d : datetime) : string :=
  let '(y, m, dd) := civil_from_days (wall d / DAY) in
  pad4 y +:+ "-" +:+ pad2 m +:+ "-" +:+ pad2 dd.

Definition strftime_clock (d : datetime) : string :=
  let s := (wall d mod DAY) / SECOND in
  pad2 (s / 3600) +:+ ":" +:+ pad2 (s / 60 mod 60) +:+ ":" +:+ pad2 (s mod 60).

(** [dt.strftime(fmt)] *)
Definition strftime (d : datetime) (fmt : format) : string :=
  match fmt with
  | DATE_FMT => strftime_date d
  | TIME_FMT => strftime_date d +:+ " " +:+ strftime_clock d
  end.
Arguments strftime d fmt : simpl never.

(** The external reader:
    [dateutil.parser.parse(time, PARSERINFO).astimezone(pytz.timezone(TIMEZONE))],
    [None] when it raises [ParserError]. *)
Class Dateutil := { parse : string -> option datetime }.

(** ** Exceptions and results *)

(** One constructor per [raise ToDoException(..)] of the module, carrying
    what its message interpolates. *)
Inductive ToDoException :=
| UnparsableTime (time : string)
| PersonNameExists (name : string)
| PersonIdExists (id : string)
| EmptyTask
| NoSuchTask (task_id : nat)
| UnknownPerson (name : string)
| BadRecurring
| IncompleteReminder.

Inductive result (A : Type) :=
| Ok (a : A)
| Raise (e : ToDoException).
Arguments Ok {A} a.
Arguments Raise {A} e.

(** [datetime_from_string(time)], without a format. *)
Definition datetime_from_string `{Dateutil} (time : string) : result datetime :=
  match parse time with
  | Some dt => Ok dt
  | None => Raise (UnparsableTime time)
  end.

(** [datetime_from_string(time, format)], with one of the two formats. *)
Definition datetime_from_string_format `{Dateutil} (time : string) (fmt : format)
  : result string :=
  match parse time with
  | Some dt => Ok (strftime dt fmt)
  | None => Raise (UnparsableTime time)
  end.

(** ** Documents and tables *)

(** The values a document stores. *)
Inductive value :=
| VStr (s : string)
| VInt (n : nat)
| VList (l : list string).

#[global] Instance value_eq_dec : EqDecision value.
Proof. solve_decision. Defined.

(** The fields of the documents of the three tables. [deadline] and
    [task_id] are keys that a document may lack. *)
Record person_doc := mk_person_doc {
  person_name : string;
  person_pretty_name : string;
  person_id : string }.

Record task_doc := mk_task_doc {
  task_name : string;
  task_content : string;
  task_deadline : option string }.

Record reminder_doc := mk_reminder_doc {
  reminder_time : string;
  reminder_names : list string;
  reminder_recurring : string;
  reminder_content : string;
  reminder_task_id : option nat }.

(** The dictionaries handed to [table.insert], as the three insert sites
    build them. *)
Definition Person_document (d : person_doc) : gmap string value :=
  <["name" := VStr (person_name d)]>
    (<["pretty_name" := VStr (person_pretty_name d)]>
       (<["id" := VStr (person_id d)]> ∅)).

Definition Task_document (d : task_doc) : gmap string value :=
  let doc : gmap string value :=
    <["name" := VStr (task_name d)]> (<["content" := VStr (task_content d)]> ∅) in
  match task_deadline d with
  | Some deadline => <["deadline" := VStr deadline]> doc
  | None => doc
  end.

Definition Reminder_document (d : reminder_doc) : gmap string value :=
  let _reminder : gmap string value :=
    <["time" := VStr (reminder_time d)]>
      (<["names" := VList (reminder_names d)]>
         (<["content" := VStr (reminder_content d)]>
            (<["recurring" := VStr (reminder_recurring d)]> ∅))) in
  match reminder_task_id d with
  | Some task_id => <["task_id" := VInt task_id]> _reminder
  | None => _reminder
  end.

(** [Query().key == v], tested on a document: the key is there and holds
    [v]. *)
Definition Query_eq (key : string) (v : value) (doc : gmap string value) : bool :=
  bool_decide (doc !! key = Some v).

(** A table, in iteration order. *)
Definition table (A : Type) : Type := list (nat * A).

Definition ids {A} (t : table A) : list nat := map fst t.

Definition wf_table {A} (t : table A) : Prop := NoDup (ids t).

(** [table.get(doc_id=i)] *)
Fixpoint get_id {A} (i : nat) (t : table A) : option A :=
  match t with
  | [] => None
  | (j, d) :: t' => if Nat.eqb i j then Some d else get_id i t'
  end.

(** [table.get(cond)]: the first document that matches. *)
Definition get_where {A} (cond : A -> bool) (t : table A) : option (nat * A) :=
  List.find (fun e => cond (snd e)) t.

(** [table.search(cond)] *)
Definition search {A} (cond : A -> bool) (t : table A) : list (nat * A) :=
  List.filter (fun e => cond (snd e)) t.

(** [table.insert(doc)]: the document goes last, under the id after the
    largest one in use (what TinyDB computes on the first insertion into a
    table it has opened). *)
Definition next_id {A} (t : table A) : nat := S (max_list (ids t)).

Definition insert_doc {A} (d : A) (t : table A) : table A :=
  t ++ [(next_id t, d)].

(** [table.remove(cond)] *)
Definition remove_where {A} (cond : A -> bool) (t : table A) : table A :=
  List.filter (fun e => negb (cond (snd e))) t.

(** [table.remove(doc_ids=[i])]; the callers pass an id they have just
    looked up. *)
Definition remove_id {A} (i : nat) (t : table A) : table A :=
  List.filter (fun e => negb (Nat.eqb (fst e) i)) t.

(** [table.update(fields, doc_ids=[i])], [f] overwriting the fields; the
    caller passes the id of a document it has read. *)
Definition update_id {A} (f : A -> A) (i : nat) (t : table A) : table A :=
  map (fun e => if Nat.eqb (fst e) i then (fst e, f (snd e)) else e) t.

(** The database: the tables [people], [tasks] and [reminders]. *)
Record DB := mk_DB {
  people : table person_doc;
  tasks : table task_doc;
  reminders : table reminder_doc }.

Definition set_people (f : table person_doc -> table person_doc) (db : DB) : DB :=
  {| people := f (people db); tasks := tasks db; reminders := reminders db |}.

Definition set_tasks (f : table task_doc -> table task_doc) (db : DB) : DB :=
  {| people := people db; tasks := f (tasks db); reminders := reminders db |}.

Definition set_reminders (f : table reminder_doc -> table reminder_doc) (db : DB) : DB :=
  {| people := people db; tasks := tasks db; reminders := f (reminders db) |}.

Definition wf_DB (db : DB) : Prop :=
  wf_table (people db) /\ wf_table (tasks db) /\ wf_table (reminders db).

(** ** Operations on the store: state and exceptions *)

Definition M (A : Type) : Type := DB -> DB * result A.

Definition ret {A} (a : A) : M A := fun db => (db, Ok a).

Definition raise {A} (e : ToDoException) : M A := fun db => (db, Raise e).

Definition bind {A B} (m : M A) (k : A -> M B) : M B :=
  fun db =>
    match m db with
    | (db', Ok a) => k a db'
    | (db', Raise e) => (db', Raise e)
    end.

Definition reads {A} (f : DB -> A) : M A := fun db => (db, Ok (f db)).

Definition modify (f : DB -> DB) : M unit := fun db => (f db, Ok tt).

Definition lift {A} (r : result A) : M A := fun db => (db, r).

Notation "'do' x <- m ; k" := (bind m (fun x => k))
  (at level 10, x name, m at level 100, k at level 200).
Notation "m ;; k" := (bind m (fun _ => k))
  (at level 100, k at level 200, right associativity).

(** [for x in l: body(x)], stopping at the first exception. *)
Fixpoint for_each {A} (body : A -> M unit) (l : list A) : M unit :=
  match l with
  | [] => ret tt
  | x :: l' => body x ;; for_each body l'
  end.

(** ** Task *)

Module Task.

Record t := mk {
  doc_id : nat;
  name : string;
  content : string;
  deadline : option string }.

(** [Task(_task)] *)
Definition init (doc_id : nat) (_task : task_doc) : t :=
  {| doc_id := doc_id;
     name := task_name _task;
     content := task_content _task;
     deadline := task_deadline _task |}.

Definition from_id (task_id : nat) : M (option t) :=
  reads (fun db => init task_id <$> get_id task_id (tasks db)).

Definition remove_task (task_id : nat) : M (option t) :=
  do task <- from_id task_id;
  match task with
  | Some _ =>
      modify (set_tasks (remove_id task_id)) ;;
      modify (set_reminders
                (remove_where
                   (fun r => Query_eq "task" (VInt task_id) (Reminder_document r)))) ;;
      ret task
  | None => ret task
  end.

(** [str(task)]; the id is printed in decimal. *)
Definition __str__ (self : t) : string :=
  if truthy (deadline self)
  then "**[" +:+ pretty (doc_id self) +:+ "]** " +:+ content self
       +:+ " *(deadline: " +:+ default "" (deadline self) +:+ ")*"
  else "**[" +:+ pretty (doc_id self) +:+ "]** " +:+ content self.

End Task.

(** ** Person *)

Module Person.

Record t := mk {
  doc_id : nat;
  name : string;
  pretty_name : string;
  id : string }.

(** [Person(_person)] *)
Definition init (_person : nat * person_doc) : t :=
  {| doc_id := fst _person;
     name := person_name (snd _person);
     pretty_name := person_pretty_name (snd _person);
     id := person_id (snd _person) |}.

Definition from_name (name : string) : M (option t) :=
  let name := format_name name in
  reads (fun db =>
           init <$> get_where (fun p => Query_eq "name" (VStr name) (Person_document p))
                              (people db)).

Definition from_id (id : string) : M (option t) :=
  reads (fun db =>
           init <$> get_where (fun p => Query_eq "id" (VStr id) (Person_document p))
                              (people db)).

Definition new_person (name pretty_name id : string) : M (option t) :=
  let name := format_name name in
  do known <- from_name name;
  if bool_decide (is_Some known) then raise (PersonNameExists name) else
  do known <- from_id id;
  if bool_decide (is_Some known) then raise (PersonIdExists id) else
  do doc_id <- reads (fun db => next_id (people db));
  modify (set_people
            (insert_doc {| person_name := name;
                           person_pretty_name := pretty_name;
                           person_id := id |})) ;;
  reads (fun db => (fun d => init (doc_id, d)) <$> get_id doc_id (people db)).

Definition remove_person (name : string) : M unit :=
  let name := format_name name in
  modify (set_people
            (remove_where (fun p => Query_eq "name" (VStr name) (Person_document p)))) ;;
  do found <- reads (fun db =>
                search (fun k => Query_eq "name" (VStr name) (Task_document k))
                       (tasks db));
  for_each
    (fun task : nat * task_doc =>
       modify (set_reminders
                 (remove_where
                    (fun r => Query_eq "name" (VStr name) (Reminder_document r)))) ;;
       Task.remove_task (fst task) ;;
       ret tt)
    found.

Definition add_task (self : t) (content : string) (deadline : option string)
  `{Dateutil} : M (option Task.t) :=
  if String.eqb content "" then raise EmptyTask else
  do task <-
    (if truthy deadline then
       do deadline <- lift (datetime_from_string_format (default "" deadline) DATE_FMT);
       ret {| task_name := name self; task_content := content;
              task_deadline := Some deadline |}
     else
       ret {| task_name := name self; task_content := content;
              task_deadline := None |});
  do task_id <- reads (fun db => next_id (tasks db));
  modify (set_tasks (insert_doc task)) ;;
  Task.from_id task_id.

Definition todos (self : t) : M (list Task.t) :=
  reads (fun db =>
           map (fun _task => Task.init (fst _task) (snd _task))
               (search (fun k => Query_eq "name" (VStr (name self)) (Task_document k))
                       (tasks db))).

(** [todo_list]: one line per task, each closed by a newline. *)
Definition todo_list (self : t) : M string :=
  do tasks <- todos self;
  ret (foldl (fun _todo_list task =>
                _todo_list +:+ (Task.__str__ task +:+ String "010"%char EmptyString))
             "" tasks).

End Person.

(** ** Reminder *)

Module Reminder.

Record t := mk {
  doc_id : nat;
  time : string;
  names : list string;
  recurring : string;
  content : string;
  task_id : option nat }.

Definition recurring_options : list string :=
  ["daily"; "weekly"; "monthly"; "yearly"].

(** [Reminder(_reminder)] *)
Definition init (_reminder : nat * reminder_doc) : t :=
  {| doc_id := fst _reminder;
     time := reminder_time (snd _reminder);
     names := reminder_names (snd _reminder);
     recurring := reminder_recurring (snd _reminder);
     content := reminder_content (snd _reminder);
     task_id := reminder_task_id (snd _reminder) |}.

Definition from_id (reminder_id : nat) : M (option t) :=
  reads (fun db =>
           (fun d => init (reminder_id, d)) <$> get_id reminder_id (reminders db)).

(** The loop [for name in names] of [new_reminder]: every non-empty name
    must be the name of a known person. *)
Definition check_names (names : list string) : M unit :=
  for_each
    (fun name =>
       do person <- Person.from_name name;
       if negb (String.eqb name "") && negb (bool_decide (is_Some person))
       then raise (UnknownPerson name)
       else ret tt)
    names.

Definition new_reminder `{Dateutil} (time : option string) (names : list string)
    (recurring : option string) (content : option string) (task_id : option nat)
  : M (option t) :=
  let names := map format_name (List.filter (fun name => negb (String.eqb name "")) names) in
  do inferred <-
    (if truthy_id task_id then
       do task <- Task.from_id (default 0%nat task_id);
       match task with
       | None => raise (NoSuchTask (default 0%nat task_id))
       | Some task =>
           let time :=
             if negb (truthy time) && truthy (Task.deadline task)
             then Some (default "" (Task.deadline task) +:+ " 10:00")
             else time in
           let names :=
             if negb (bool_decide (Task.name task ∈ names))
             then Task.name task :: names
             else names in
           let content :=
             if negb (truthy content) then Some (Task.content task) else content in
           ret (time, names, content)
       end
     else ret (time, names, content));
  let '(time, names, content) := inferred in
  do time <-
    (if truthy time
     then do s <- lift (datetime_from_string_format (default "" time) TIME_FMT);
          ret (Some s)
     else ret time);
  check_names names ;;
  do recurring <-
    (if truthy recurring then
       let recurring := lower (default "" recurring) in
       if bool_decide (recurring ∈ recurring_options)
       then ret recurring
       else raise BadRecurring
     else ret "off");
  if negb (truthy time && negb (bool_decide (names = [])) && truthy content)
  then raise IncompleteReminder
  else
    let _reminder :=
      {| reminder_time := default "" time;
         reminder_names := names;
         reminder_content := default "" content;
         reminder_recurring := recurring;
         reminder_task_id := if truthy_id task_id then task_id else None |} in
    do reminder_id <- reads (fun db => next_id (reminders db));
    modify (set_reminders (insert_doc _reminder)) ;;
    from_id reminder_id.

Definition remove_reminder (reminder_id : nat) : M (option t) :=
  do reminder <- from_id reminder_id;
  match reminder with
  | Some _ => modify (set_reminders (remove_id reminder_id)) ;; ret reminder
  | None => ret reminder
  end.

(** *** The scheduler

    [update_reminders] builds one object per document and keeps
    references to them in two lists, [reminders] and [reminders_to_show];
    [set_new_time] assigns to a field of the object. The objects live in
    a heap (a list, a reference being an index into it), so that an
    assignment is seen through every reference. *)
Record poll_state := mk_poll_state {
  store : DB;
  heap : list t;
  reminders_to_show : list nat }.

Definition with_time (time : string) (r : t) : t :=
  {| doc_id := doc_id r; time := time; names := names r;
     recurring := recurring r; content := content r; task_id := task_id r |}.

Definition with_reminder_time (time : string) (d : reminder_doc) : reminder_doc :=
  {| reminder_time := time; reminder_names := reminder_names d;
     reminder_recurring := reminder_recurring d;
     reminder_content := reminder_content d;
     reminder_task_id := reminder_task_id d |}.

(** [self.set_new_time(time)], [self] a reference. The loop only passes
    references to objects of the heap; a dangling one changes nothing. *)
Definition set_new_time `{Dateutil} (self : nat) (time : string) (σ : poll_state)
  : poll_state * result unit :=
  match datetime_from_string_format time TIME_FMT with
  | Raise e => (σ, Raise e)
  | Ok time =>
      match heap σ !! self with
      | Some obj =>
          ({| store := set_reminders (update_id (with_reminder_time time) (doc_id obj))
                                     (store σ);
              heap := <[self := with_time time obj]> (heap σ);
              reminders_to_show := reminders_to_show σ |}, Ok tt)
      | None => (σ, Ok tt)
      end
  end.

(** [while next_time < dt_now: next_time += datetime.timedelta(days=days)],
    unrolled at most [fuel] times. *)
Fixpoint while_before (fuel : nat) (days : Z) (dt_now next_time : datetime) : datetime :=
  match fuel with
  | O => next_time
  | S fuel' =>
      if datetime_lt next_time dt_now
      then while_before fuel' days dt_now (add_days next_time days)
      else next_time
  end.

(** The loop, with fuel for one round more than the whole days that
    separate [next_time] from [dt_now]; [while_exits] shows that it leaves
    through its test. *)
Definition while_loop (days : Z) (dt_now next_time : datetime) : datetime :=
  while_before (S (Z.to_nat ((instant dt_now - instant next_time) / DAY)))
               days dt_now next_time.

(** The body of [for reminder in reminders], [reminder] a reference;
    [now] is [dt_now.strftime(TIME_FMT)]. *)
Definition poll_body `{Dateutil} (dt_now : datetime) (now : string) (reminder : nat)
    (σ : poll_state) : poll_state * result unit :=
  match heap σ !! reminder with
  | None => (σ, Ok tt)
  | Some obj =>
      if String.ltb (time obj) now then
        let σ := {| store := store σ; heap := heap σ;
                    reminders_to_show := reminders_to_show σ ++ [reminder] |} in
        match datetime_from_string (time obj) with
        | Raise e => (σ, Raise e)
        | Ok next_time =>
            let reset next_time :=
              set_new_time reminder (strftime next_time TIME_FMT) σ in
            if String.eqb (recurring obj) "daily" then
              reset (while_loop 1 dt_now next_time)
            else if String.eqb (recurring obj) "weekly" then
              reset (while_loop 7 dt_now next_time)
            else if String.eqb (recurring obj) "monthly" then
              reset (while_loop 1 dt_now next_time)
            else if String.eqb (recurring obj) "yearly" then
              reset (while_loop 1 dt_now next_time)
            else
              let '(db, r) := remove_reminder (doc_id obj) (store σ) in
              ({| store := db; heap := heap σ;
                  reminders_to_show := reminders_to_show σ |},
               match r with Ok _ => Ok tt | Raise e => Raise e end)
        end
      else (σ, Ok tt)
  end.

Fixpoint poll_loop `{Dateutil} (dt_now : datetime) (now : string)
    (refs : list nat) (σ : poll_state) : poll_state * result unit :=
  match refs with
  | [] => (σ, Ok tt)
  | reminder :: refs' =>
      match poll_body dt_now now reminder σ with
      | (σ', Ok _) => poll_loop dt_now now refs' σ'
      | (σ', Raise e) => (σ', Raise e)
      end
  end.

(** [update_reminders()], the clock reading [dt_now] an argument. The
    objects returned are read from the heap as the loop leaves it. *)
Definition update_reminders `{Dateutil} (dt_now : datetime) : M (list t) :=
  fun db =>
    let reminders := map init (reminders db) in
    let now := strftime dt_now TIME_FMT in
    let σ := {| store := db; heap := reminders; reminders_to_show := [] |} in
    match poll_loop dt_now now (seq 0 (length reminders)) σ with
    | (σ', Ok _) => (store σ', Ok (omap (fun r => heap σ' !! r) (reminders_to_show σ')))
    | (σ', Raise e) => (store σ', Raise e)
    end.

End Reminder.

(** [Query().key.any(l)], tested on a document: the key holds a sequence
    one of whose elements is in [l] (a string is the sequence of its
    characters). *)
Definition Query_any (key : string) (l : list string) (doc : gmap string value) : bool :=
  match doc !! key with
  | Some (VList xs) => existsb (fun e => bool_decide (e ∈ l)) xs
  | Some (VStr s) =>
      existsb (fun c => bool_decide (String c EmptyString ∈ l)) (list_ascii_of_string s)
  | _ => false
  end.

(** [Person.reminders]: the reminders that name the person. *)
Definition Person_reminders (self : Person.t) : M (list Reminder.t) :=
  reads (fun db =>
           map Reminder.init
               (search (fun r => Query_any "names" [Person.name self] (Reminder_document r))
                       (reminders db))).

(** The shape of the table [people] that [Person.new_person] keeps: ids,
    names and external ids are pairwise different, and the names are in the
    format of [format_name]. *)
Definition people_unique (t : table person_doc) : Prop :=
  wf_table t
  /\ NoDup (map (fun e => person_name (snd e)) t)
  /\ NoDup (map (fun e => person_id (snd e)) t)
  /\ Forall (fun e => format_name (person_name (snd e)) = person_name (snd e)) t.

(** ** A reader of the canonical forms

    An instance of [Dateutil] on which the operations can be run: it reads
    [yyyy-mm-dd], [yyyy-mm-dd HH:MM] and [yyyy-mm-dd HH:MM:SS] as written, on
    the wall clock of Brussels standard time (UTC+1), and nothing else. *)

Definition digit_value (c : ascii) : option Z :=
  let n := nat_of_ascii c in
  if ((48 <=? n)%nat && (n <=? 57)%nat)%bool then Some (Z.of_nat (n - 48)) else None.

Fixpoint read_digits (s : string) (acc : Z) : option Z :=
  match s with
  | EmptyString => Some acc
  | String c s' =>
      match digit_value c with
      | Some v => read_digits s' (10 * acc + v)
      | None => None
      end
  end.

(** The number written in the [len] characters of [s] from [start]. *)
Definition read_field (s : string) (start len : nat) : option Z :=
  let field := String.substring start len s in
  if Nat.eqb (String.length field) len then read_digits field 0 else None.

Definition separator (s : string) (at_ : nat) (c : ascii) : bool :=
  bool_decide (String.get at_ s = Some c).

Definition is_leap (y : Z) : bool :=
  ((y mod 4 =? 0) && negb (y mod 100 =? 0)) || (y mod 400 =? 0).

Definition days_in_month (y m : Z) : Z :=
  if m =? 2 then (if is_leap y then 29 else 28)
  else if (m =? 4) || (m =? 6) || (m =? 9) || (m =? 11) then 30 else 31.

Definition BRUSSELS_STANDARD : Z := 3600 * SECOND.

Definition read_date (s : string) : option Z :=
  y ← read_field s 0 4;
  m ← read_field s 5 2;
  d ← read_field s 8 2;
  if separator s 4 "-" && separator s 7 "-"
     && (1 <=? y) && (1 <=? m) && (m <=? 12) && (1 <=? d) && (d <=? days_in_month y m)
  then Some (days_from_civil y m d * DAY)
  else None.

Definition read_clock (s : string) (with_seconds : bool) : option Z :=
  h ← read_field s 11 2;
  mi ← read_field s 14 2;
  sec ← (if with_seconds then read_field s 17 2 else Some 0);
  if separator s 10 " " && separator s 13 ":"
     && (if with_seconds then separator s 16 ":" else true)
     && (h <? 24) && (mi <? 60) && (sec <? 60)
  then Some ((h * 3600 + mi * 60 + sec) * SECOND)
  else None.

Definition read_canonical (time : string) : option datetime :=
  let len := String.length time in
  date ← read_date time;
  clock ← (if Nat.eqb len 10 then Some 0
           else if Nat.eqb len 16 then read_clock time false
           else if Nat.eqb len 19 then read_clock time true
           else None);
  Some {| wall := date + clock; utcoffset := BRUSSELS_STANDARD |}.

Definition canonical_reader : Dateutil := {| parse := read_canonical |}.

(** A wall-clock reading of Brussels standard time, to the microsecond. *)
Definition brussels (y m d h mi s us : Z) : datetime :=
  {| wall := days_from_civil y m d * DAY + (h * 3600 + mi * 60 + s) * SECOND + us;
     utcoffset := BRUSSELS_STANDARD |}.

(** ** The scheduler, row by row

    What [poll_body] decides for one document, and what the loop then
    leaves in the table and in the list it returns. [update_reminders_sweep]
    shows that the loop over the heap computes exactly this. *)
Inductive verdict :=
| Keep
| Delete
| Retime (time : string)
| Abort (e : ToDoException).

(** The [timedelta] of the branch taken for a value of [recurring]. *)
Definition days_of (recurring : string) : option Z :=
  if String.eqb recurring "daily" then Some 1
  else if String.eqb recurring "weekly" then Some 7
  else if String.eqb recurring "monthly" then Some 1
  else if String.eqb recurring "yearly" then Some 1
  else None.

Definition verdict_of `{Dateutil} (dt_now : datetime) (d : reminder_doc) : verdict :=
  if String.ltb (reminder_time d) (strftime dt_now TIME_FMT) then
    match parse (reminder_time d) with
    | None => Abort (UnparsableTime (reminder_time d))
    | Some next_time =>
        match days_of (reminder_recurring d) with
        | None => Delete
        | Some days =>
            let time := strftime (Reminder.while_loop days dt_now next_time) TIME_FMT in
            match parse time with
            | Some dt => Retime (strftime dt TIME_FMT)
            | None => Abort (UnparsableTime time)
            end
        end
    end
  else Keep.

Fixpoint sweep `{Dateutil} (dt_now : datetime) (rows : table reminder_doc)
  : table reminder_doc * list Reminder.t * option ToDoException :=
  match rows with
  | [] => ([], [], None)
  | (i, d) :: rows' =>
      match verdict_of dt_now d with
      | Abort e => ((i, d) :: rows', [], Some e)
      | Keep =>
          let '(t, shown, e) := sweep dt_now rows' in ((i, d) :: t, shown, e)
      | Delete =>
          let '(t, shown, e) := sweep dt_now rows' in
          (t, Reminder.init (i, d) :: shown, e)
      | Retime time =>
          let '(t, shown, e) := sweep dt_now rows' in
          ((i, Reminder.with_reminder_time time d) :: t,
           Reminder.with_time time (Reminder.init (i, d)) :: shown, e)
      end
  end.

(** What one row leaves in the table, and what it adds to the list
    returned, when the loop runs to its end. *)
Definition row_after `{Dateutil} (dt_now : datetime) (row : nat * reminder_doc)
  : option (nat * reminder_doc) :=
  match verdict_of dt_now (snd row) with
  | Keep => Some row
  | Retime time => Some (fst row, Reminder.with_reminder_time time (snd row))
  | Delete | Abort _ => None
  end.

Definition row_shown `{Dateutil} (dt_now : datetime) (row : nat * reminder_doc)
  : option Reminder.t :=
  match verdict_of dt_now (snd row) with
  | Delete => Some (Reminder.init row)
  | Retime time => Some (Reminder.with_time time (Reminder.init row))
  | Keep | Abort _ => None
  end.

(** [reminder.time < now] on a document. *)
Definition due (dt_now : datetime) (d : reminder_doc) : bool :=
  String.ltb (reminder_time d) (strftime dt_now TIME_FMT).

(** The tasks left by the loop of [remove_person] over the tasks it has
    found. *)
Definition remove_found (found : list (nat * task_doc)) (t : table task_doc)
  : table task_doc :=
  foldl (fun t task => remove_id (fst task) t) t found.

(** ** Stores and clock readings used in the examples *)

Definition alice : Person.t :=
  {| Person.doc_id := 1; Person.name := "alice"; Person.pretty_name := "Alice";
     Person.id := "4242" |}.

Definition alice_doc : person_doc :=
  {| person_name := "alice"; person_pretty_name := "Alice"; person_id := "4242" |}.

(** Two reminders set for 15 January 2024 at 10:00, one monthly and one
    yearly. *)
Definition monthly_yearly_store : DB :=
  {| people := [(1%nat, alice_doc)];
     tasks := [];
     reminders :=
       [(1%nat, mk_reminder_doc "2024-01-15 10:00:00" ["alice"] "monthly" "pay the rent" None);
        (2%nat, mk_reminder_doc "2024-01-15 10:00:00" ["alice"] "yearly" "renew the pass" None)] |}.

(** Alice, a task of hers with a deadline, and a reminder linked to it. *)
Definition linked_store : DB :=
  {| people := [(1%nat, alice_doc)];
     tasks := [(1%nat, mk_task_doc "alice" "buy milk" (Some "2024-06-15"))];
     reminders :=
       [(1%nat, mk_reminder_doc "2024-06-15 10:00:00" ["alice"] "off" "buy milk" (Some 1%nat))] |}.

(** A daily reminder set for 15 January 2024 at 10:00. *)
Definition daily_store : DB :=
  {| people := [(1%nat, alice_doc)];
     tasks := [];
     reminders :=
       [(1%nat, mk_reminder_doc "2024-01-15 10:00:00" ["alice"] "daily" "water the plants" None)] |}.

(** A document whose [time] cannot be read, before a one-off reminder that
    is due. *)
Definition corrupt_store : DB :=
  {| people := [(1%nat, alice_doc)];
     tasks := [];
     reminders :=
       [(1%nat, mk_reminder_doc "#corrupt#" ["alice"] "off" "first" None);
        (2%nat, mk_reminder_doc "2024-01-14 10:00:00" ["alice"] "off" "second" None)] |}.

(** A one-off reminder set for 18 January 2024 at 10:00. *)
Definition exact_store : DB :=
  {| people := [(1%nat, alice_doc)];
     tasks := [];
     reminders :=
       [(1%nat, mk_reminder_doc "2024-01-18 10:00:00" ["alice"] "off" "call back" None)] |}.

(** A one-off reminder that is due on 15 January at noon, and a daily one
    that is not. *)
Definition one_off_store : DB :=
  {| people := [(1%nat, alice_doc)];
     tasks := [];
     reminders :=
       [(1%nat, mk_reminder_doc "2024-01-14 10:00:00" ["alice"] "off" "call back" None);
        (2%nat, mk_reminder_doc "2024-01-16 10:00:00" ["alice"] "daily" "water the plants" None)] |}.

Definition empty_store : DB := {| people := []; tasks := []; reminders := [] |}.

Definition noon_15_january : datetime := brussels 2024 1 15 12 0 0 0.
Definition ten_18_january : datetime := brussels 2024 1 18 10 0 0 0.

(** ** Names, character by character *)

(** What [format_name] does to one character that [strip] has left. *)
Definition name_char (c : ascii) : ascii :=
  if Ascii.eqb (lower_char c) " "%char then "_"%char else lower_char c.

Fixpoint name_chars (s : string) : string :=
  match s with
  | EmptyString => EmptyString
  | String c s' => String (name_char c) (name_chars s')
  end.

(** No blank at the head. *)
Definition headed (s : string) : Prop :=
  match s with
  | EmptyString => True
  | String c _ => isspace c = false
  end.

(** A reminder whose [time] is no date and sorts after every date, and a
    weekly reminder of 1 January 2024. *)
Definition later_store : DB :=
  {| people := [(1%nat, alice_doc)];
     tasks := [];
     reminders :=
       [(1%nat, mk_reminder_doc "tomorrow" ["alice"] "off" "call back" None);
        (2%nat, mk_reminder_doc "2024-01-20 08:00:00" ["alice"] "weekly" "bins" None)] |}.

Definition weekly_store : DB :=
  {| people := [(1%nat, alice_doc)];
     tasks := [];
     reminders :=
       [(1%nat, mk_reminder_doc "2023-12-25 08:00:00" ["alice"] "weekly" "bins" None)] |}.

(** ** The year-first forms under [dayfirst]

    [PARSERINFO] is [dateutil.parser.parserinfo(dayfirst=True)]. On a date
    of three numbers that begins with a four-digit year, dateutil then takes
    the second number for the day and the third for the month whenever the
    third one can be a month (is at most 12), and reads month and day in the
    written order otherwise. [dayfirst_reader] is [canonical_reader] with
    that rule. *)
Definition read_date_dayfirst (s : string) : option Z :=
  y ← read_field s 0 4;
  second ← read_field s 5 2;
  third ← read_field s 8 2;
  let '(m, d) := if third <=? 12 then (third, second) else (second, third) in
  if separator s 4 "-" && separator s 7 "-"
     && (1 <=? y) && (1 <=? m) && (m <=? 12) && (1 <=? d) && (d <=? days_in_month y m)
  then Some (days_from_civil y m d * DAY)
  else None.

Definition read_dayfirst (time : string) : option datetime :=
  let len := String.length time in
  date ← read_date_dayfirst time;
  clock ← (if Nat.eqb len 10 then Some 0
           else if Nat.eqb len 16 then read_clock time false
           else if Nat.eqb len 19 then read_clock time true
           else None);
  Some {| wall := date + clock; utcoffset := BRUSSELS_STANDARD |}.

Definition dayfirst_reader : Dateutil := {| parse := read_dayfirst |}.

(** Alice and a task of hers with the deadline 1 June 2024. *)
Definition june_store : DB :=
  {| people := [(1%nat, alice_doc)];
     tasks := [(1%nat, mk_task_doc "alice" "buy milk" (Some "2024-06-01"))];
     reminders := [] |}.

(** * Properties *)

(** ** Tables *)

Section Tables.
Context {A : Type}.
Implicit Types (t done rest : table A) (i : nat) (d : A).

Lemma ids_app done rest : ids (done ++ rest) = ids done ++ ids rest.
Proof. unfold ids. apply map_app. Qed.

Lemma get_id_elem_of i d t : get_id i t = Some d -> (i, d) ∈ t.
Proof.
  induction t as [|[j e] t IH]; simpl; [discriminate|].
  destruct (Nat.eqb_spec i j) as [->|Hne].
  - intros [= ->]. apply list_elem_of_here.
  - intros Hg. apply list_elem_of_further. auto.
Qed.

Lemma get_id_None i t : get_id i t = None <-> i ∉ ids t.
Proof.
  induction t as [|[j e] t IH]; simpl.
  - split; [intros _; apply not_elem_of_nil | done].
  - destruct (Nat.eqb_spec i j) as [->|Hne].
    + split; [discriminate | intros Hn; exfalso; apply Hn; apply list_elem_of_here].
    + rewrite IH. rewrite not_elem_of_cons. tauto.
Qed.

Lemma elem_of_get_id i d t : wf_table t -> (i, d) ∈ t -> get_id i t = Some d.
Proof.
  unfold wf_table. induction t as [|[j e] t IH]; simpl; intros Hwf Hin.
  - by apply elem_of_nil in Hin.
  - apply NoDup_cons in Hwf as [Hj Hwf].
    apply elem_of_cons in Hin as [[= <- <-]|Hin].
    + by rewrite Nat.eqb_refl.
    + destruct (Nat.eqb_spec i j) as [->|Hne]; [|auto].
      exfalso. apply Hj. unfold ids. apply list_elem_of_fmap.
      exists (j, d). done.
Qed.

Lemma elem_of_ids i d t : (i, d) ∈ t -> i ∈ ids t.
Proof. intros Hin. unfold ids. apply list_elem_of_fmap. by exists (i, d). Qed.

Lemma get_id_middle i d done rest :
  i ∉ ids done -> get_id i (done ++ (i, d) :: rest) = Some d.
Proof.
  induction done as [|[j e] done IH]; simpl; intros Hn.
  - by rewrite Nat.eqb_refl.
  - apply not_elem_of_cons in Hn as [Hne Hn].
    destruct (Nat.eqb_spec i j); [done | auto].
Qed.

Lemma remove_id_fresh i t : i ∉ ids t -> remove_id i t = t.
Proof.
  induction t as [|[j e] t IH]; simpl; intros Hn; [done|].
  apply not_elem_of_cons in Hn as [Hne Hn].
  destruct (Nat.eqb_spec j i); [congruence|]. simpl. f_equal. auto.
Qed.

Lemma remove_id_middle i d done rest :
  i ∉ ids done -> i ∉ ids rest ->
  remove_id i (done ++ (i, d) :: rest) = done ++ rest.
Proof.
  intros Hd Hr. unfold remove_id. rewrite List.filter_app. simpl.
  rewrite Nat.eqb_refl. simpl.
  fold (remove_id i done). fold (remove_id i rest).
  by rewrite !remove_id_fresh.
Qed.

Lemma update_id_fresh (f : A -> A) i t : i ∉ ids t -> update_id f i t = t.
Proof.
  induction t as [|[j e] t IH]; simpl; intros Hn; [done|].
  apply not_elem_of_cons in Hn as [Hne Hn].
  destruct (Nat.eqb_spec j i); [congruence|]. f_equal. auto.
Qed.

Lemma update_id_middle (f : A -> A) i d done rest :
  i ∉ ids done -> i ∉ ids rest ->
  update_id f i (done ++ (i, d) :: rest) = done ++ (i, f d) :: rest.
Proof.
  intros Hd Hr. unfold update_id. rewrite map_app. simpl.
  rewrite Nat.eqb_refl.
  fold (update_id f i done). fold (update_id f i rest).
  by rewrite !update_id_fresh.
Qed.

Lemma wf_middle i d done rest :
  wf_table (done ++ (i, d) :: rest) ->
  (i ∉ ids done) /\ (i ∉ ids rest) /\ wf_table (done ++ rest).
Proof.
  unfold wf_table. rewrite !ids_app. simpl. intros Hwf.
  apply NoDup_app in Hwf as (Hd & Hdis & Hr).
  apply NoDup_cons in Hr as [Hi Hr].
  split_and!.
  - intros Hin. apply (Hdis i Hin). apply list_elem_of_here.
  - done.
  - apply NoDup_app. split_and!; [done| |done].
    intros j Hj Hj'. apply (Hdis j Hj). by apply list_elem_of_further.
Qed.

Lemma next_id_fresh t : next_id t ∉ ids t.
Proof.
  unfold next_id. intros Hin.
  assert (S (max_list (ids t)) <= max_list (ids t))%nat; [|lia].
  by apply max_list_elem_of_le.
Qed.

Lemma get_id_insert_doc d t : get_id (next_id t) (insert_doc d t) = Some d.
Proof. unfold insert_doc. apply get_id_middle, next_id_fresh. Qed.

End Tables.

(** ** The catch-up loop *)

Lemma add_days_add (d : datetime) (m n : Z) :
  add_days (add_days d m) n = add_days d (m + n).
Proof. unfold add_days. simpl. f_equal. lia. Qed.

Lemma add_days_0 (d : datetime) : add_days d 0 = d.
Proof. destruct d. unfold add_days. simpl. f_equal. lia. Qed.

Lemma instant_add_days (d : datetime) (n : Z) :
  instant (add_days d n) = instant d + n * DAY.
Proof. unfold instant, add_days. simpl. lia. Qed.

(** With enough fuel the loop leaves through its test: it stops at the
    first of [next_time], [next_time + days], [next_time + 2 days], ... that
    is not before [dt_now]. *)
Lemma while_before_spec (days : Z) (dt_now : datetime) (fuel : nat) :
  forall next_time : datetime,
    1 <= days ->
    instant dt_now - instant next_time < Z.of_nat fuel * DAY ->
    exists k : nat,
      Reminder.while_before fuel days dt_now next_time
        = add_days next_time (Z.of_nat k * days)
      /\ instant dt_now <= instant (add_days next_time (Z.of_nat k * days))
      /\ forall j : nat, (j < k)%nat ->
           instant (add_days next_time (Z.of_nat j * days)) < instant dt_now.
Proof.
  induction fuel as [|fuel IH]; intros next_time Hdays Hfuel.
  - exists 0%nat. simpl. rewrite add_days_0.
    split_and!; [done | lia | intros j Hj; lia].
  - simpl. unfold datetime_lt.
    destruct (Z.ltb_spec (instant next_time) (instant dt_now)) as [Hlt|Hge].
    + destruct (IH (add_days next_time days) Hdays) as (k & Hk & Hstop & Hbefore).
      { rewrite instant_add_days. unfold DAY, SECOND in *. nia. }
      exists (S k). rewrite add_days_add in Hk, Hstop.
      replace (Z.of_nat (S k) * days) with (days + Z.of_nat k * days) by lia.
      split_and!; [done | done |].
      intros [|j] Hj.
      * simpl. by rewrite add_days_0.
      * specialize (Hbefore j ltac:(lia)). rewrite add_days_add in Hbefore.
        by replace (Z.of_nat (S j) * days) with (days + Z.of_nat j * days) by lia.
    + exists 0%nat. simpl. rewrite add_days_0.
      split_and!; [done | done | intros j Hj; lia].
Qed.

Lemma while_exits (days : Z) (dt_now next_time : datetime) :
  1 <= days ->
  exists k : nat,
    Reminder.while_loop days dt_now next_time = add_days next_time (Z.of_nat k * days)
    /\ instant dt_now <= instant (add_days next_time (Z.of_nat k * days))
    /\ forall j : nat, (j < k)%nat ->
         instant (add_days next_time (Z.of_nat j * days)) < instant dt_now.
Proof.
  intros Hdays. apply while_before_spec; [done|].
  set (gap := instant dt_now - instant next_time).
  destruct (Z.lt_ge_cases gap 0) as [Hneg|Hpos].
  - unfold DAY, SECOND. lia.
  - rewrite Nat2Z.inj_succ, Z2Nat.id by (apply Z.div_pos; unfold DAY, SECOND; lia).
    pose proof (Z.mod_pos_bound gap DAY ltac:(unfold DAY, SECOND; lia)).
    pose proof (Z.div_mod gap DAY ltac:(unfold DAY, SECOND; lia)).
    lia.
Qed.

(** ** The scheduler loop computes [sweep] *)

Lemma wf_table_retag {A} (done rest : table A) i d d' :
  wf_table (done ++ (i, d) :: rest) -> wf_table ((done ++ [(i, d')]) ++ rest).
Proof.
  unfold wf_table. rewrite <- app_assoc. simpl.
  by rewrite !ids_app.
Qed.

Lemma heap_lookup_middle (done_h : list Reminder.t) obj rest :
  (done_h ++ obj :: rest) !! length done_h = Some obj.
Proof. by apply list_lookup_middle. Qed.

Lemma heap_insert_middle (done_h : list Reminder.t) obj obj' rest :
  <[length done_h := obj']> (done_h ++ obj :: rest) = done_h ++ obj' :: rest.
Proof.
  rewrite insert_app_r_alt by lia. by rewrite Nat.sub_diag.
Qed.

Section Loop.
Context `{Dateutil}.
Variable dt_now : datetime.

Lemma set_new_time_middle ppl tsk done_t i d rows' done_h rest_h shown time time' :
  wf_table (done_t ++ (i, d) :: rows') ->
  datetime_from_string_format time TIME_FMT = Ok time' ->
  Reminder.set_new_time (length done_h) time
    {| Reminder.store := mk_DB ppl tsk (done_t ++ (i, d) :: rows');
       Reminder.heap := done_h ++ Reminder.init (i, d) :: rest_h;
       Reminder.reminders_to_show := shown |}
  = ({| Reminder.store :=
          mk_DB ppl tsk (done_t ++ (i, Reminder.with_reminder_time time' d) :: rows');
        Reminder.heap :=
          done_h ++ Reminder.with_time time' (Reminder.init (i, d)) :: rest_h;
        Reminder.reminders_to_show := shown |}, Ok tt).
Proof.
  intros Hwf Htime. apply wf_middle in Hwf as (Hd & Hr & _).
  unfold Reminder.set_new_time. rewrite Htime. simpl.
  rewrite heap_lookup_middle, heap_insert_middle. simpl.
  unfold set_reminders. simpl. by rewrite update_id_middle.
Qed.

Lemma remove_reminder_middle ppl tsk done_t i d rows' :
  wf_table (done_t ++ (i, d) :: rows') ->
  Reminder.remove_reminder i (mk_DB ppl tsk (done_t ++ (i, d) :: rows'))
  = (mk_DB ppl tsk (done_t ++ rows'), Ok (Some (Reminder.init (i, d)))).
Proof.
  intros Hwf. apply wf_middle in Hwf as (Hd & Hr & _).
  unfold Reminder.remove_reminder, Reminder.from_id, bind, reads, modify, ret.
  simpl. rewrite get_id_middle by done. simpl.
  unfold set_reminders. simpl. by rewrite remove_id_middle.
Qed.

Lemma poll_body_verdict ppl tsk done_t i d rows' done_h rest_h shown :
  wf_table (done_t ++ (i, d) :: rows') ->
  Reminder.poll_body dt_now (strftime dt_now TIME_FMT) (length done_h)
    {| Reminder.store := mk_DB ppl tsk (done_t ++ (i, d) :: rows');
       Reminder.heap := done_h ++ Reminder.init (i, d) :: rest_h;
       Reminder.reminders_to_show := shown |}
  = match verdict_of dt_now d with
    | Keep =>
        ({| Reminder.store := mk_DB ppl tsk (done_t ++ (i, d) :: rows');
            Reminder.heap := done_h ++ Reminder.init (i, d) :: rest_h;
            Reminder.reminders_to_show := shown |}, Ok tt)
    | Delete =>
        ({| Reminder.store := mk_DB ppl tsk (done_t ++ rows');
            Reminder.heap := done_h ++ Reminder.init (i, d) :: rest_h;
            Reminder.reminders_to_show := shown ++ [length done_h] |}, Ok tt)
    | Retime time =>
        ({| Reminder.store :=
              mk_DB ppl tsk (done_t ++ (i, Reminder.with_reminder_time time d) :: rows');
            Reminder.heap :=
              done_h ++ Reminder.with_time time (Reminder.init (i, d)) :: rest_h;
            Reminder.reminders_to_show := shown ++ [length done_h] |}, Ok tt)
    | Abort e =>
        ({| Reminder.store := mk_DB ppl tsk (done_t ++ (i, d) :: rows');
            Reminder.heap := done_h ++ Reminder.init (i, d) :: rest_h;
            Reminder.reminders_to_show := shown ++ [length done_h] |}, Raise e)
    end.
Proof.
  intros Hwf. unfold Reminder.poll_body, verdict_of. simpl.
  rewrite heap_lookup_middle. simpl.
  destruct (String.ltb _ _); [|done].
  unfold datetime_from_string.
  destruct (parse (reminder_time d)) as [next_time|]; [|done].
  unfold days_of.
  assert (Hreset : forall days,
    Reminder.set_new_time (length done_h)
      (strftime (Reminder.while_loop days dt_now next_time) TIME_FMT)
      {| Reminder.store := mk_DB ppl tsk (done_t ++ (i, d) :: rows');
         Reminder.heap := done_h ++ Reminder.init (i, d) :: rest_h;
         Reminder.reminders_to_show := shown ++ [length done_h] |}
    = match parse (strftime (Reminder.while_loop days dt_now next_time) TIME_FMT) with
      | Some dt =>
        ({| Reminder.store :=
              mk_DB ppl tsk
                (done_t ++ (i, Reminder.with_reminder_time (strftime dt TIME_FMT) d) :: rows');
            Reminder.heap :=
              done_h ++ Reminder.with_time (strftime dt TIME_FMT) (Reminder.init (i, d)) :: rest_h;
            Reminder.reminders_to_show := shown ++ [length done_h] |}, Ok tt)
      | None =>
        ({| Reminder.store := mk_DB ppl tsk (done_t ++ (i, d) :: rows');
            Reminder.heap := done_h ++ Reminder.init (i, d) :: rest_h;
            Reminder.reminders_to_show := shown ++ [length done_h] |},
         Raise (UnparsableTime (strftime (Reminder.while_loop days dt_now next_time) TIME_FMT)))
      end).
  { intros days.
    destruct (parse (strftime _ TIME_FMT)) as [dt|] eqn:Hp.
    - apply set_new_time_middle; [done|].
      unfold datetime_from_string_format. by rewrite Hp.
    - unfold Reminder.set_new_time, datetime_from_string_format. by rewrite Hp. }
  repeat (destruct (String.eqb (reminder_recurring d) _);
          [rewrite Hreset; by destruct (parse (strftime _ TIME_FMT))|]).
  rewrite remove_reminder_middle by done. done.
Qed.

Lemma poll_loop_sweep ppl tsk :
  forall rows done_t done_h shown,
    wf_table (done_t ++ rows) ->
    exists h s,
      Reminder.poll_loop dt_now (strftime dt_now TIME_FMT)
        (seq (length done_h) (length rows))
        {| Reminder.store := mk_DB ppl tsk (done_t ++ rows);
           Reminder.heap := done_h ++ map Reminder.init rows;
           Reminder.reminders_to_show := shown |}
      = ({| Reminder.store := mk_DB ppl tsk (done_t ++ (sweep dt_now rows).1.1);
            Reminder.heap := done_h ++ h;
            Reminder.reminders_to_show := shown ++ s |},
         match (sweep dt_now rows).2 with
         | None => Ok tt
         | Some e => Raise e
         end)
      /\ ((sweep dt_now rows).2 = None ->
          omap (fun r => (done_h ++ h) !! r) s = (sweep dt_now rows).1.2).
Proof.
  induction rows as [|[i d] rows' IH]; intros done_t done_h shown Hwf.
  - exists [], []. simpl. rewrite !app_nil_r. done.
  - cbn [length seq map Reminder.poll_loop sweep].
    rewrite poll_body_verdict by done.
    destruct (verdict_of dt_now d) as [| |time|e] eqn:Hv.
    + destruct (IH (done_t ++ [(i, d)]) (done_h ++ [Reminder.init (i, d)]) shown)
        as (h & s & Hloop & Hshow).
      { by apply wf_table_retag with (d := d). }
      rewrite length_app, Nat.add_1_r, <- !app_assoc in Hloop. simpl in Hloop.
      exists (Reminder.init (i, d) :: h), s.
      destruct (sweep dt_now rows') as [[t shown'] e']. simpl in *.
      rewrite Hloop. split; [done|].
      intros He. rewrite <- (Hshow He). by rewrite <- app_assoc.
    + destruct (IH done_t (done_h ++ [Reminder.init (i, d)]) (shown ++ [length done_h]))
        as (h & s & Hloop & Hshow).
      { by apply wf_middle in Hwf as (_ & _ & Hwf). }
      rewrite length_app, Nat.add_1_r, <- !app_assoc in Hloop. simpl in Hloop.
      exists (Reminder.init (i, d) :: h), (length done_h :: s).
      destruct (sweep dt_now rows') as [[t shown'] e']. simpl in *.
      rewrite Hloop. split; [done|].
      intros He. rewrite heap_lookup_middle. f_equal.
      rewrite <- (Hshow He). by rewrite <- app_assoc.
    + destruct (IH (done_t ++ [(i, Reminder.with_reminder_time time d)])
                  (done_h ++ [Reminder.with_time time (Reminder.init (i, d))])
                  (shown ++ [length done_h]))
        as (h & s & Hloop & Hshow).
      { by apply wf_table_retag with (d := d). }
      rewrite length_app, Nat.add_1_r, <- !app_assoc in Hloop. simpl in Hloop.
      exists (Reminder.with_time time (Reminder.init (i, d)) :: h), (length done_h :: s).
      destruct (sweep dt_now rows') as [[t shown'] e']. simpl in *.
      rewrite Hloop. split; [done|].
      intros He. rewrite heap_lookup_middle. f_equal.
      rewrite <- (Hshow He). by rewrite <- app_assoc.
    + exists (Reminder.init (i, d) :: map Reminder.init rows'), [length done_h].
      simpl. split; [done | discriminate].
Qed.

Lemma update_reminders_sweep (db : DB) :
  wf_table (reminders db) ->
  Reminder.update_reminders dt_now db
  = (set_reminders (fun _ => (sweep dt_now (reminders db)).1.1) db,
     match (sweep dt_now (reminders db)).2 with
     | None => Ok (sweep dt_now (reminders db)).1.2
     | Some e => Raise e
     end).
Proof.
  intros Hwf. destruct db as [ppl tsk rows]. simpl in *.
  destruct (poll_loop_sweep ppl tsk rows [] [] [] Hwf) as (h & s & Hloop & Hshow).
  unfold Reminder.update_reminders. simpl in *.
  rewrite length_map. rewrite Hloop.
  destruct (sweep dt_now rows) as [[t shown'] [e|]]; simpl in *; [done|].
  by rewrite Hshow.
Qed.
End Loop.

(** ** What a completed poll leaves behind *)

Section Sweep.
Context `{Dateutil}.
Variable dt_now : datetime.
Implicit Types (rows : table reminder_doc) (d : reminder_doc) (i : nat).

Lemma verdict_Keep d : verdict_of dt_now d = Keep <-> due dt_now d = false.
Proof.
  unfold verdict_of, due. destruct (String.ltb _ _); [|done].
  split; [|done].
  destruct (parse (reminder_time d)); [|done].
  destruct (days_of _); [|done]. by destruct (parse (strftime _ _)).
Qed.

Lemma days_of_None recurring :
  days_of recurring = None <-> recurring ∉ Reminder.recurring_options.
Proof.
  unfold days_of, Reminder.recurring_options.
  repeat match goal with
         | |- context [String.eqb recurring ?s] =>
             destruct (String.eqb_spec recurring s) as [->|?];
             [split; [done | intros Hn; exfalso; apply Hn; set_solver]|]
         end.
  split; [|done]. intros _.
  rewrite !not_elem_of_cons. split_and!; try done. apply not_elem_of_nil.
Qed.

Lemma verdict_Delete d :
  verdict_of dt_now d = Delete <->
  due dt_now d = true /\ is_Some (parse (reminder_time d))
  /\ reminder_recurring d ∉ Reminder.recurring_options.
Proof.
  rewrite <- days_of_None. unfold verdict_of, due.
  destruct (String.ltb _ _); [|split; [done | intros [? _]; done]].
  destruct (parse (reminder_time d)) eqn:Hp.
  - destruct (days_of _).
    + split; [by destruct (parse (strftime _ _)) | intros (_ & _ & ?); done].
    + split; [eauto | done].
  - split; [done | intros (_ & [? ?] & _); done].
Qed.

Lemma verdict_Retime d time :
  verdict_of dt_now d = Retime time <->
  due dt_now d = true /\
  exists next_time days dt,
    parse (reminder_time d) = Some next_time
    /\ days_of (reminder_recurring d) = Some days
    /\ parse (strftime (Reminder.while_loop days dt_now next_time) TIME_FMT) = Some dt
    /\ time = strftime dt TIME_FMT.
Proof.
  unfold verdict_of, due.
  destruct (String.ltb _ _); [|split; [done | intros [? _]; done]].
  destruct (parse (reminder_time d)) as [next_time|] eqn:Hp.
  - destruct (days_of _) as [days|].
    + destruct (parse (strftime _ _)) as [dt|] eqn:Hq.
      * split.
        -- intros [= <-]. split; [done|]. by exists next_time, days, dt.
        -- intros (_ & n & k & dt' & [= <-] & [= <-] & Hq' & ->).
           rewrite Hq in Hq'. by injection Hq' as ->.
      * split; [done|].
        intros (_ & n & k & dt' & [= <-] & [= <-] & Hq' & _). congruence.
    + split; [done | intros (_ & n & k & dt' & _ & ? & _); done].
  - split; [done | intros (_ & n & k & dt' & ? & _); done].
Qed.

(** The scheduler completes on a table exactly when no row aborts. *)
Lemma sweep_completes rows :
  (sweep dt_now rows).2 = None <->
  Forall (fun row => forall e, verdict_of dt_now (snd row) <> Abort e) rows.
Proof.
  induction rows as [|[i d] rows IH]; simpl.
  - split; [constructor | done].
  - rewrite Forall_cons. simpl.
    destruct (verdict_of dt_now d) eqn:Hv;
      try (destruct (sweep dt_now rows) as [[t shown] e']; simpl in *;
           rewrite IH; split; [intros ?; split; [done | done] | by intros [_ ?]]).
    simpl. split; [done|]. intros [Hn _]. by destruct (Hn e).
Qed.

Lemma sweep_rows rows :
  (sweep dt_now rows).2 = None ->
  (sweep dt_now rows).1.1 = omap (row_after dt_now) rows
  /\ (sweep dt_now rows).1.2 = omap (row_shown dt_now) rows.
Proof.
  induction rows as [|[i d] rows IH]; simpl; [done|].
  unfold row_after, row_shown. simpl.
  destruct (verdict_of dt_now d) eqn:Hv;
    try (destruct (sweep dt_now rows) as [[t shown] e']; simpl in *;
         intros He; destruct (IH He) as [-> ->]; done).
  done.
Qed.

(** A completed poll, in closed form. *)
Lemma update_reminders_Ok (db db' : DB) (shown : list Reminder.t) :
  wf_table (reminders db) ->
  Reminder.update_reminders dt_now db = (db', Ok shown) ->
  db' = set_reminders (fun _ => omap (row_after dt_now) (reminders db)) db
  /\ shown = omap (row_shown dt_now) (reminders db)
  /\ Forall (fun row => forall e, verdict_of dt_now (snd row) <> Abort e) (reminders db).
Proof.
  intros Hwf. rewrite update_reminders_sweep by done.
  destruct ((sweep dt_now (reminders db)).2) eqn:He; [done|].
  destruct (sweep_rows _ He) as [Ht Hs].
  apply sweep_completes in He.
  intros [= <- <-]. by rewrite Ht.
Qed.

Lemma update_reminders_completes (db : DB) :
  wf_table (reminders db) ->
  Forall (fun row => forall e, verdict_of dt_now (snd row) <> Abort e) (reminders db) ->
  Reminder.update_reminders dt_now db
  = (set_reminders (fun _ => omap (row_after dt_now) (reminders db)) db,
     Ok (omap (row_shown dt_now) (reminders db))).
Proof.
  intros Hwf Hall. rewrite update_reminders_sweep by done.
  apply sweep_completes in Hall.
  destruct (sweep_rows _ Hall) as [-> ->]. by rewrite Hall.
Qed.

Lemma row_after_id row row' : row_after dt_now row = Some row' -> fst row' = fst row.
Proof.
  unfold row_after. destruct (verdict_of _ _); intros [= <-]; done.
Qed.

Lemma ids_row_after i rows :
  i ∈ ids (omap (row_after dt_now) rows) -> i ∈ ids rows.
Proof.
  unfold ids. rewrite !list_elem_of_fmap.
  intros (row' & -> & Hin). apply list_elem_of_omap in Hin as (row & Hin & Hr).
  exists row. split; [by apply row_after_id | done].
Qed.

Lemma wf_row_after rows : wf_table rows -> wf_table (omap (row_after dt_now) rows).
Proof.
  unfold wf_table. induction rows as [|row rows IH]; simpl; [done|].
  intros Hwf. apply NoDup_cons in Hwf as [Hrow Hwf].
  destruct (row_after dt_now row) as [row'|] eqn:Hr; [|auto].
  simpl. apply NoDup_cons. split; [|auto].
  rewrite (row_after_id _ _ Hr). intros Hin. apply Hrow.
  by apply ids_row_after.
Qed.

Lemma row_after_lookup i d rows :
  wf_table rows -> (i, d) ∈ rows ->
  get_id i (omap (row_after dt_now) rows) = snd <$> row_after dt_now (i, d).
Proof.
  intros Hwf Hin.
  destruct (row_after dt_now (i, d)) as [[j d']|] eqn:Hr; simpl.
  - pose proof (row_after_id _ _ Hr) as Hj. simpl in Hj. subst j.
    apply elem_of_get_id; [by apply wf_row_after|].
    apply list_elem_of_omap. by exists (i, d).
  - apply get_id_None. unfold ids. rewrite list_elem_of_fmap.
    intros ([j d'] & Hj & Hin'). simpl in Hj. subst j.
    apply list_elem_of_omap in Hin' as ([k d0] & Hin0 & Hr0).
    pose proof (row_after_id _ _ Hr0) as Hk. simpl in Hk. subst k.
    assert (d0 = d) as ->.
    { apply (elem_of_get_id _ _ _ Hwf) in Hin0, Hin. congruence. }
    congruence.
Qed.
End Sweep.

(** ** Queries on keys that the documents do not have *)

Lemma Reminder_document_no_task (task_id : nat) (r : reminder_doc) :
  Query_eq "task" (VInt task_id) (Reminder_document r) = false.
Proof.
  unfold Query_eq, Reminder_document. apply bool_decide_eq_false.
  destruct (reminder_task_id r); by simplify_map_eq.
Qed.

Lemma Reminder_document_no_name (name : string) (r : reminder_doc) :
  Query_eq "name" (VStr name) (Reminder_document r) = false.
Proof.
  unfold Query_eq, Reminder_document. apply bool_decide_eq_false.
  destruct (reminder_task_id r); by simplify_map_eq.
Qed.

Lemma Person_document_name (name : string) (p : person_doc) :
  Query_eq "name" (VStr name) (Person_document p) = bool_decide (person_name p = name).
Proof.
  unfold Query_eq, Person_document. simplify_map_eq.
  apply bool_decide_ext. split; congruence.
Qed.

Lemma Task_document_name (name : string) (k : task_doc) :
  Query_eq "name" (VStr name) (Task_document k) = bool_decide (task_name k = name).
Proof.
  unfold Query_eq, Task_document.
  destruct (task_deadline k); simplify_map_eq;
    apply bool_decide_ext; split; congruence.
Qed.

Lemma remove_where_none {A} (cond : A -> bool) (t : table A) :
  (forall d, cond d = false) -> remove_where cond t = t.
Proof.
  intros Hc. unfold remove_where. induction t as [|e t IH]; simpl; [done|].
  rewrite Hc. simpl. by f_equal.
Qed.

Lemma set_reminders_id (db : DB) : set_reminders (fun t => t) db = db.
Proof. by destruct db. Qed.

(** ** Removing a task *)

(** What [Task.remove_task] does to the store: the task goes, the table of
    reminders stays as it is, since no reminder document has a key
    [task]. *)
Lemma remove_task_effect (task_id : nat) (db : DB) :
  Task.remove_task task_id db
  = (set_tasks (remove_id task_id) db,
     Ok (Task.init task_id <$> get_id task_id (tasks db))).
Proof.
  unfold Task.remove_task, Task.from_id, bind, reads, modify, ret.
  destruct db as [ppl tsk rem]. simpl.
  destruct (get_id task_id tsk) as [k|] eqn:Hg; simpl.
  - unfold set_tasks, set_reminders. simpl.
    rewrite remove_where_none by apply Reminder_document_no_task. done.
  - unfold set_tasks. simpl. rewrite remove_id_fresh; [done|].
    by apply get_id_None.
Qed.

Lemma remove_task_keeps_reminders (task_id : nat) (db : DB) :
  reminders (fst (Task.remove_task task_id db)) = reminders db.
Proof. rewrite remove_task_effect. done. Qed.

(** C2, at a store where the code departs from it: removing task 1 of
    [linked_store] returns the task and deletes it, and the reminder whose
    [task_id] is 1 is still in the store. *)
Theorem remove_task_leaves_linked_reminder :
  let '(db', task) := Task.remove_task 1 linked_store in
  task = Ok (Some {| Task.doc_id := 1; Task.name := "alice";
                     Task.content := "buy milk"; Task.deadline := Some "2024-06-15" |})
  /\ tasks db' = []
  /\ Reminder.from_id 1 db'
     = (db', Ok (Some {| Reminder.doc_id := 1; Reminder.time := "2024-06-15 10:00:00";
                         Reminder.names := ["alice"]; Reminder.recurring := "off";
                         Reminder.content := "buy milk"; Reminder.task_id := Some 1%nat |})).
Proof. vm_compute. done. Qed.

(** ** Removing a person *)

Lemma remove_person_loop (name : string) (found : list (nat * task_doc)) :
  forall db : DB,
    for_each
      (fun task : nat * task_doc =>
         modify (set_reminders
                   (remove_where
                      (fun r => Query_eq "name" (VStr name) (Reminder_document r)))) ;;
         Task.remove_task (fst task) ;;
         ret tt)
      found db
    = (set_tasks (remove_found found) db, Ok tt).
Proof.
  induction found as [|task found IH]; intros db.
  - by destruct db.
  - cbn [for_each]. unfold bind at 1. unfold bind at 1. unfold modify at 1.
    unfold bind at 1. rewrite remove_task_effect. unfold ret at 1.
    rewrite IH. destruct db as [ppl tsk rem]. unfold set_tasks, set_reminders. simpl.
    rewrite remove_where_none by apply Reminder_document_no_name. done.
Qed.

(** What [Person.remove_person] does to the store: the person and the
    tasks found under the name go, the table of reminders stays as it is. *)
Lemma remove_person_effect (name : string) (db : DB) :
  Person.remove_person name db
  = ({| people := remove_where (fun p => bool_decide (person_name p = format_name name))
                               (people db);
        tasks := remove_found
                   (search (fun k => bool_decide (task_name k = format_name name)) (tasks db))
                   (tasks db);
        reminders := reminders db |}, Ok tt).
Proof.
  unfold Person.remove_person. unfold bind at 1. unfold modify at 1.
  unfold bind at 1. unfold reads at 1. rewrite remove_person_loop.
  destruct db as [ppl tsk rem]. unfold set_tasks, set_people. simpl.
  f_equal. f_equal.
  - unfold remove_where. apply List.filter_ext. intros [i p]. simpl.
    by rewrite Person_document_name.
  - f_equal. unfold search. apply List.filter_ext. intros [i k]. simpl.
    by rewrite Task_document_name.
Qed.

Lemma elem_of_remove_id {A} (i j : nat) (d : A) (t : table A) :
  (i, d) ∈ remove_id j t <-> (i, d) ∈ t /\ i <> j.
Proof.
  unfold remove_id. rewrite !list_elem_of_In, List.filter_In. simpl.
  rewrite negb_true_iff, Nat.eqb_neq. done.
Qed.

Lemma elem_of_remove_found (i : nat) (k : task_doc) (found : list (nat * task_doc)) :
  forall t : table task_doc,
    (i, k) ∈ remove_found found t -> (i, k) ∈ t /\ (i ∉ ids found).
Proof.
  induction found as [|[j k'] found IH]; simpl; intros t Hin.
  - split; [done | apply not_elem_of_nil].
  - apply IH in Hin as [Hin Hn]. apply elem_of_remove_id in Hin as [Hin Hne].
    split; [done|]. simpl in Hne. apply not_elem_of_cons. done.
Qed.

(** The part of the cascade that the code carries out: no person and no
    task under the name is left. *)
Lemma remove_person_people_and_tasks (name : string) (db : DB) :
  let db' := fst (Person.remove_person name db) in
  (forall i p, (i, p) ∈ people db' -> person_name p <> format_name name)
  /\ (forall i k, (i, k) ∈ tasks db' -> task_name k <> format_name name)
  /\ reminders db' = reminders db.
Proof.
  rewrite remove_person_effect. simpl. split_and!; [| |done].
  - intros i p Hin. unfold remove_where in Hin.
    apply list_elem_of_In, List.filter_In in Hin as [_ Hc]. simpl in Hc.
    apply negb_true_iff, bool_decide_eq_false in Hc. done.
  - intros i k Hin Hname. apply elem_of_remove_found in Hin as [Hin Hn].
    apply Hn. apply elem_of_ids with (d := k). unfold search.
    apply list_elem_of_In, List.filter_In. split; [by apply list_elem_of_In|].
    simpl. by apply bool_decide_eq_true.
Qed.

(** C3, at a store where the code departs from it: after
    [remove_person "alice"] on [linked_store] the person and her task are
    gone, and the reminder that names her and is linked to her task is still
    found. *)
Theorem remove_person_leaves_reminders :
  let '(db', _) := Person.remove_person "alice" linked_store in
  Person.from_name "alice" db' = (db', Ok None)
  /\ Task.from_id 1 db' = (db', Ok None)
  /\ Reminder.from_id 1 db'
     = (db', Ok (Some {| Reminder.doc_id := 1; Reminder.time := "2024-06-15 10:00:00";
                         Reminder.names := ["alice"]; Reminder.recurring := "off";
                         Reminder.content := "buy milk"; Reminder.task_id := Some 1%nat |})).
Proof. vm_compute. done. Qed.

(** ** Monthly and yearly reminders *)

Lemma monthly_yearly_step :
  days_of "monthly" = days_of "daily" /\ days_of "yearly" = days_of "daily".
Proof. done. Qed.

(** C1, at a store where the code departs from it: polled at noon of 15
    January 2024, the monthly and the yearly reminder of 15 January 10:00
    are both moved to 16 January 10:00, one day later, and not to 15
    February 2024 and 15 January 2025. *)
Theorem monthly_and_yearly_advance_by_one_day :
  reminders (fst (@Reminder.update_reminders canonical_reader noon_15_january
                    monthly_yearly_store))
  = [(1%nat, mk_reminder_doc "2024-01-16 10:00:00" ["alice"] "monthly" "pay the rent" None);
     (2%nat, mk_reminder_doc "2024-01-16 10:00:00" ["alice"] "yearly" "renew the pass" None)].
Proof. vm_compute. done. Qed.

(** ** Adding a task *)

(** C9 as stated fails: content made of one blank is accepted. *)
Lemma blank_content_is_accepted :
  ~ (forall content : string,
       strip content = "" ->
       @Person.add_task alice content None canonical_reader empty_store
       = (empty_store, Raise EmptyTask)).
Proof.
  intros Hc. specialize (Hc " " eq_refl). vm_compute in Hc. discriminate Hc.
Qed.

(** C9, amended: creation fails with the empty-content error when the
    content is empty, the store being left as it was; any other content,
    blank or not, is inserted. *)
Theorem add_task_rejects_empty_content_only `{Dateutil} (self : Person.t)
    (deadline : option string) (c : ascii) (content : string) (db : DB) :
  Person.add_task self "" deadline db = (db, Raise EmptyTask)
  /\ Person.add_task self (String c content) None db
     = (set_tasks (insert_doc (mk_task_doc (Person.name self) (String c content) None)) db,
        Ok (Some {| Task.doc_id := next_id (tasks db); Task.name := Person.name self;
                    Task.content := String c content; Task.deadline := None |})).
Proof.
  split; [done|].
  unfold Person.add_task. simpl.
  unfold bind, ret, reads, modify, Task.from_id. simpl.
  unfold reads. destruct db as [ppl tsk rem]. unfold set_tasks. simpl.
  rewrite get_id_insert_doc. done.
Qed.

(** ** Which reminders a poll returns *)

Section Poll.
Context `{Dateutil}.
Variable dt_now : datetime.

Lemma row_shown_inv (i : nat) (d : reminder_doc) (r : Reminder.t) :
  row_shown dt_now (i, d) = Some r ->
  Reminder.doc_id r = i /\ due dt_now d = true
  /\ ((verdict_of dt_now d = Delete /\ r = Reminder.init (i, d))
      \/ (verdict_of dt_now d = Retime (Reminder.time r)
          /\ r = Reminder.with_time (Reminder.time r) (Reminder.init (i, d)))).
Proof.
  unfold row_shown. simpl.
  destruct (verdict_of dt_now d) as [| |time|e] eqn:Hv; try done.
  - intros [= <-]. apply verdict_Delete in Hv as (Hdue & _). auto.
  - intros [= <-]. apply verdict_Retime in Hv as (Hdue & _). simpl. auto.
Qed.

Lemma due_row_shown (i : nat) (d : reminder_doc) :
  due dt_now d = true ->
  (forall e, verdict_of dt_now d <> Abort e) ->
  exists r, row_shown dt_now (i, d) = Some r /\ Reminder.doc_id r = i.
Proof.
  intros Hdue Hok. unfold row_shown. simpl.
  destruct (verdict_of dt_now d) as [| |time|e] eqn:Hv.
  - apply verdict_Keep in Hv. congruence.
  - eauto.
  - eauto.
  - by destruct (Hok e).
Qed.

(** C8, amended: a completed poll returns a reminder exactly when its
    stored [time] is strictly below the canonical form of the clock
    reading. *)
Theorem due_iff_strictly_before (db db' : DB) (shown : list Reminder.t) (i : nat) :
  wf_table (reminders db) ->
  Reminder.update_reminders dt_now db = (db', Ok shown) ->
  (exists r, r ∈ shown /\ Reminder.doc_id r = i)
  <-> (exists d, (i, d) ∈ reminders db
                 /\ String.ltb (reminder_time d) (strftime dt_now TIME_FMT) = true).
Proof.
  intros Hwf Hpoll.
  apply update_reminders_Ok in Hpoll as (_ & -> & Hall); [|done].
  split.
  - intros (r & Hin & Hid). apply list_elem_of_omap in Hin as ([j d] & Hin & Hr).
    apply row_shown_inv in Hr as (Hj & Hdue & _).
    assert (j = i) as -> by congruence. exists d. split; [done | exact Hdue].
  - intros (d & Hin & Hdue).
    rewrite Forall_forall in Hall. specialize (Hall _ Hin). simpl in Hall.
    destruct (due_row_shown i d Hdue Hall) as (r & Hr & Hid).
    exists r. split; [|done]. apply list_elem_of_omap. by exists (i, d).
Qed.

(** C4, amended: the reminder returned for a due recurring document is
    the object that [set_new_time] has updated. It is the document read
    at the start of the poll with its [time] replaced, and it equals what
    the store holds under its id after the poll. *)
Theorem returned_reminder_carries_new_time (db db' : DB) (shown : list Reminder.t)
    (r : Reminder.t) :
  wf_table (reminders db) ->
  Reminder.update_reminders dt_now db = (db', Ok shown) ->
  r ∈ shown ->
  Reminder.recurring r ∈ Reminder.recurring_options ->
  Reminder.from_id (Reminder.doc_id r) db' = (db', Ok (Some r))
  /\ exists d, (Reminder.doc_id r, d) ∈ reminders db
               /\ due dt_now d = true
               /\ r = Reminder.with_time (Reminder.time r)
                        (Reminder.init (Reminder.doc_id r, d)).
Proof.
  intros Hwf Hpoll Hin Hrec.
  apply update_reminders_Ok in Hpoll as (-> & -> & Hall); [|done].
  apply list_elem_of_omap in Hin as ([i d] & Hin & Hr).
  pose proof (row_shown_inv _ _ _ Hr) as (Hid & Hdue & [[Hv Hinit]|[Hv Hinit]]).
  - exfalso. apply verdict_Delete in Hv as (_ & _ & Hoff). apply Hoff.
    by rewrite Hinit in Hrec.
  - rewrite Hid. split; [|by exists d].
    unfold Reminder.from_id, reads. simpl. f_equal.
    rewrite (row_after_lookup dt_now i d) by done.
    unfold row_after. simpl. rewrite Hv. simpl. f_equal. f_equal.
    rewrite Hinit. done.
Qed.

(** Companion of C6 for any store: a due reminder that is not recurring
    is returned as it was stored, and is no longer in the store. *)
Lemma one_off_returned_and_deleted (db db' : DB) (shown : list Reminder.t)
    (i : nat) (d : reminder_doc) :
  wf_table (reminders db) ->
  Reminder.update_reminders dt_now db = (db', Ok shown) ->
  (i, d) ∈ reminders db ->
  due dt_now d = true ->
  reminder_recurring d ∉ Reminder.recurring_options ->
  Reminder.init (i, d) ∈ shown
  /\ Reminder.from_id i db' = (db', Ok None).
Proof.
  intros Hwf Hpoll Hin Hdue Hoff.
  apply update_reminders_Ok in Hpoll as (-> & -> & Hall); [|done].
  rewrite Forall_forall in Hall. specialize (Hall _ Hin). simpl in Hall.
  assert (Hv : verdict_of dt_now d = Delete).
  { apply verdict_Delete. split_and!; [done| |done].
    unfold verdict_of in Hall. fold (due dt_now d) in Hall. rewrite Hdue in Hall.
    destruct (parse (reminder_time d)); [eauto | by destruct (Hall _ eq_refl)]. }
  split.
  - apply list_elem_of_omap. exists (i, d). split; [done|].
    unfold row_shown. simpl. by rewrite Hv.
  - unfold Reminder.from_id, reads. simpl.
    rewrite (row_after_lookup dt_now i d) by done.
    unfold row_after. simpl. by rewrite Hv.
Qed.

Lemma omap_cons {A B} (f : A -> option B) (x : A) (l : list A) :
  omap f (x :: l) = match f x with Some y => y :: omap f l | None => omap f l end.
Proof. done. Qed.

Lemma omap_row_after_keep (rows : table reminder_doc) :
  Forall (fun row => due dt_now (snd row) = false) rows ->
  omap (row_after dt_now) rows = rows /\ omap (row_shown dt_now) rows = [].
Proof.
  induction 1 as [|[i d] rows Hd _ [IHa IHs]]; [done|].
  simpl in Hd. apply verdict_Keep in Hd.
  rewrite !omap_cons, IHa, IHs.
  unfold row_after, row_shown. simpl. by rewrite Hd.
Qed.

Lemma omap_row_one_off (rows : table reminder_doc) :
  Forall (fun row => due dt_now (snd row) = true -> verdict_of dt_now (snd row) = Delete)
         rows ->
  omap (row_after dt_now) rows = List.filter (fun row => negb (due dt_now (snd row))) rows
  /\ omap (row_shown dt_now) rows
     = map Reminder.init (List.filter (fun row => due dt_now (snd row)) rows).
Proof.
  induction 1 as [|[i d] rows Hd _ [IHa IHs]]; [done|].
  simpl in Hd. rewrite !omap_cons, IHa, IHs.
  unfold row_after, row_shown. simpl.
  destruct (due dt_now d) eqn:Hdue.
  - by rewrite (Hd eq_refl).
  - apply verdict_Keep in Hdue. by rewrite Hdue.
Qed.

(** C6: in a store whose due reminders can be read and are not
    recurring, a poll returns the due reminders as they were stored and
    deletes them, and a second poll at the same clock reading returns the
    empty list and leaves the store as it is. *)
Theorem one_off_reminders_fire_once (db : DB) :
  wf_table (reminders db) ->
  (forall i d, (i, d) ∈ reminders db -> due dt_now d = true ->
               is_Some (parse (reminder_time d))
               /\ (reminder_recurring d ∉ Reminder.recurring_options)) ->
  exists db',
    Reminder.update_reminders dt_now db
    = (db', Ok (map Reminder.init
                    (List.filter (fun row => due dt_now (snd row)) (reminders db))))
    /\ (forall i d, (i, d) ∈ reminders db -> due dt_now d = true ->
                    Reminder.from_id i db' = (db', Ok None))
    /\ Reminder.update_reminders dt_now db' = (db', Ok []).
Proof.
  intros Hwf Hoff.
  assert (Hdel : Forall (fun row => due dt_now (snd row) = true ->
                                    verdict_of dt_now (snd row) = Delete)
                        (reminders db)).
  { apply Forall_forall. intros [i d] Hin Hdue. simpl in *.
    apply verdict_Delete. destruct (Hoff i d Hin Hdue). done. }
  assert (Hall : Forall (fun row => forall e, verdict_of dt_now (snd row) <> Abort e)
                        (reminders db)).
  { eapply Forall_impl; [exact Hdel|]. intros [i d] Hd e He. simpl in *.
    destruct (due dt_now d) eqn:Hdue.
    - rewrite (Hd eq_refl) in He. done.
    - apply verdict_Keep in Hdue. congruence. }
  destruct (omap_row_one_off _ Hdel) as [Hafter Hshown].
  pose proof (update_reminders_completes dt_now db Hwf Hall) as Hpoll.
  rewrite Hshown in Hpoll.
  eexists. split; [exact Hpoll|]. split.
  - intros i d Hin Hdue.
    apply (one_off_returned_and_deleted _ _ _ i d Hwf Hpoll Hin Hdue).
    by destruct (Hoff i d Hin Hdue).
  - assert (Hkeep : Forall (fun row => due dt_now (snd row) = false)
                           (omap (row_after dt_now) (reminders db))).
    { rewrite Hafter. apply Forall_forall. intros row Hin.
      apply list_elem_of_In, List.filter_In in Hin as [_ Hn].
      by apply negb_true_iff in Hn. }
    destruct (omap_row_after_keep _ Hkeep) as [Ha Hs].
    rewrite update_reminders_completes.
    + simpl. rewrite Ha, Hs. done.
    + simpl. by apply wf_row_after.
    + simpl. eapply Forall_impl; [exact Hkeep|]. intros [i d] Hd e. simpl in *.
      apply verdict_Keep in Hd. congruence.
Qed.

(** A due recurring reminder after a completed poll, for the step [days]
    of its branch: it holds the canonical form, read back once, of the first
    of [t], [t] + [days], [t] + 2 [days], ... that is not before the clock
    reading. *)
Lemma recurring_reminder_catches_up (db db' : DB) (shown : list Reminder.t)
    (i : nat) (d : reminder_doc) (t : datetime) (days : Z) :
  wf_table (reminders db) ->
  (i, d) ∈ reminders db ->
  days_of (reminder_recurring d) = Some days ->
  1 <= days ->
  due dt_now d = true ->
  parse (reminder_time d) = Some t ->
  Reminder.update_reminders dt_now db = (db', Ok shown) ->
  exists (k : nat) (next' : datetime),
    instant dt_now <= instant (add_days t (Z.of_nat k * days))
    /\ (forall j : nat, (j < k)%nat ->
          instant (add_days t (Z.of_nat j * days)) < instant dt_now)
    /\ parse (strftime (add_days t (Z.of_nat k * days)) TIME_FMT) = Some next'
    /\ Reminder.from_id i db'
       = (db', Ok (Some (Reminder.with_time (strftime next' TIME_FMT)
                                            (Reminder.init (i, d))))).
Proof.
  intros Hwf Hin Hdays Hpos Hdue Ht Hpoll.
  apply update_reminders_Ok in Hpoll as (-> & _ & Hall); [|done].
  rewrite Forall_forall in Hall. specialize (Hall _ Hin). simpl in Hall.
  destruct (while_exits days dt_now t Hpos) as (k & Hk & Hstop & Hbefore).
  assert (Hv : exists next',
             parse (strftime (add_days t (Z.of_nat k * days)) TIME_FMT) = Some next'
             /\ verdict_of dt_now d = Retime (strftime next' TIME_FMT)).
  { unfold verdict_of in *. fold (due dt_now d) in *. rewrite Hdue, Ht, Hdays in *.
    simpl in *. rewrite Hk in *.
    destruct (parse (strftime _ TIME_FMT)) as [next'|];
      [eauto | by destruct (Hall _ eq_refl)]. }
  destruct Hv as (next' & Hnext & Hv).
  exists k, next'. split_and!; [done | done | done |].
  unfold Reminder.from_id, reads. simpl.
  rewrite (row_after_lookup dt_now i d) by done.
  unfold row_after. simpl. by rewrite Hv.
Qed.


(** The monthly and the yearly branch in any store: the reminder moves by
    whole days, as a daily one does. *)
Lemma monthly_and_yearly_catch_up_by_days (db db' : DB) (shown : list Reminder.t)
    (i : nat) (d : reminder_doc) (t : datetime) :
  wf_table (reminders db) ->
  (i, d) ∈ reminders db ->
  reminder_recurring d = "monthly" \/ reminder_recurring d = "yearly" ->
  due dt_now d = true ->
  parse (reminder_time d) = Some t ->
  Reminder.update_reminders dt_now db = (db', Ok shown) ->
  exists (k : nat) (next' : datetime),
    instant dt_now <= instant (add_days t (Z.of_nat k))
    /\ (forall j : nat, (j < k)%nat ->
          instant (add_days t (Z.of_nat j)) < instant dt_now)
    /\ parse (strftime (add_days t (Z.of_nat k)) TIME_FMT) = Some next'
    /\ Reminder.from_id i db'
       = (db', Ok (Some (Reminder.with_time (strftime next' TIME_FMT)
                                            (Reminder.init (i, d))))).
Proof.
  intros Hwf Hin Hrec Hdue Ht Hpoll.
  destruct (recurring_reminder_catches_up db db' shown i d t 1)
    as (k & next' & Hstop & Hbefore & Hnext & Hstored); try done.
  { by destruct Hrec as [-> | ->]. }
  rewrite Z.mul_1_r in Hstop, Hnext.
  exists k, next'. split_and!; [done | | done | done].
  intros j Hj. specialize (Hbefore j Hj). by rewrite Z.mul_1_r in Hbefore.
Qed.

Lemma sweep_app (pre rest : table reminder_doc) :
  (sweep dt_now pre).2 = None ->
  sweep dt_now (pre ++ rest)
  = ((sweep dt_now pre).1.1 ++ (sweep dt_now rest).1.1,
     (sweep dt_now pre).1.2 ++ (sweep dt_now rest).1.2,
     (sweep dt_now rest).2).
Proof.
  induction pre as [|[i d] pre IH]; simpl.
  - intros _. by destruct (sweep dt_now rest) as [[? ?] ?].
  - destruct (verdict_of dt_now d); try done;
      destruct (sweep dt_now pre) as [[t s] e]; simpl in *;
      intros He; rewrite (IH He); done.
Qed.

(** C5, amended: when the [time] of a due document cannot be read, the
    poll raises at that document. The documents before it have been
    processed, as in a poll of them alone; the document itself and those
    after it are left in the store as they were; no list is returned. *)
Theorem unreadable_time_aborts_poll (ppl : table person_doc) (tsk : table task_doc)
    (pre post : table reminder_doc) (i : nat) (bad : reminder_doc)
    (db1 : DB) (shown : list Reminder.t) :
  wf_table (pre ++ (i, bad) :: post) ->
  due dt_now bad = true ->
  parse (reminder_time bad) = None ->
  Reminder.update_reminders dt_now (mk_DB ppl tsk pre) = (db1, Ok shown) ->
  Reminder.update_reminders dt_now (mk_DB ppl tsk (pre ++ (i, bad) :: post))
  = (mk_DB ppl tsk (reminders db1 ++ (i, bad) :: post),
     Raise (UnparsableTime (reminder_time bad))).
Proof.
  intros Hwf Hdue Hbad Hpre.
  assert (Hwf_pre : wf_table pre).
  { unfold wf_table in *. rewrite ids_app in Hwf. by apply NoDup_app in Hwf as [? _]. }
  rewrite update_reminders_sweep in Hpre by done. simpl in Hpre.
  destruct ((sweep dt_now pre).2) eqn:He; [done|].
  injection Hpre as <- _.
  rewrite update_reminders_sweep by done. simpl.
  rewrite sweep_app by done. simpl.
  unfold verdict_of. fold (due dt_now bad). rewrite Hdue, Hbad. done.
Qed.
End Poll.

(** ** Creating a reminder from a task *)

Lemma check_names_store (names : list string) (db : DB) :
  fst (Reminder.check_names names db) = db.
Proof.
  unfold Reminder.check_names. induction names as [|name names IH]; [done|].
  cbn [for_each]. unfold bind at 1. unfold bind at 1.
  unfold Person.from_name at 1. unfold reads at 1.
  destruct (negb (String.eqb name "") && negb (bool_decide (is_Some _))); [done|].
  unfold ret at 1. apply IH.
Qed.

Lemma append_nonempty (s : string) (c : ascii) (s' : string) :
  String.eqb (s +:+ String c s') "" = false.
Proof. by destruct s. Qed.

(** A reminder created from a task alone (no time, no content) takes its
    content from the task, has the owner of the task among its names, at
    the head when the names given do not include it, and its [time] is what
    [datetime_from_string] makes of ["<deadline> 10:00"] in [TIME_FMT]. *)
Lemma reminder_inferred_from_task `{Dateutil} (db db' : DB) (names : list string)
    (recurring : option string) (task_id : nat) (task : Task.t) (deadline : string)
    (r : Reminder.t) :
  task_id <> 0%nat ->
  Task.from_id task_id db = (db, Ok (Some task)) ->
  Task.deadline task = Some deadline ->
  Reminder.new_reminder None names recurring None (Some task_id) db = (db', Ok (Some r)) ->
  datetime_from_string_format (deadline +:+ " 10:00") TIME_FMT = Ok (Reminder.time r)
  /\ Reminder.content r = Task.content task
  /\ Task.name task ∈ Reminder.names r
  /\ Reminder.names r
     = (let given :=
          map format_name (List.filter (fun name => negb (String.eqb name "")) names) in
        if bool_decide (Task.name task ∈ given) then given else Task.name task :: given)
  /\ Reminder.task_id r = Some task_id.
Proof.
  intros Hid Htask Hdeadline Hnew.
  unfold Reminder.new_reminder in Hnew.
  assert (Htruthy : truthy_id (Some task_id) = true).
  { simpl. by apply negb_true_iff, Nat.eqb_neq. }
  rewrite !Htruthy in Hnew.
  unfold bind at 1 in Hnew. unfold bind at 1 in Hnew.
  simpl default in Hnew. rewrite Htask in Hnew.
  unfold ret at 1 in Hnew. rewrite Hdeadline in Hnew.
  simpl truthy in Hnew.
  set (given := map format_name _) in *.
  set (names' := if negb (bool_decide (Task.name task ∈ given)) then _ else _) in *.
  destruct (String.eqb deadline "") eqn:Hempty; simpl in Hnew.
  - (* an empty deadline: no time, the creation fails *)
    unfold bind at 1 in Hnew. unfold ret at 1 in Hnew.
    unfold bind at 1 in Hnew.
    pose proof (check_names_store names' db) as Hstore.
    destruct (Reminder.check_names names' db) as [db1 [[]|e]]; [|done].
    simpl in Hstore. subst db1.
    unfold bind at 1 in Hnew.
    destruct (truthy recurring);
      [destruct (bool_decide (_ ∈ Reminder.recurring_options))|]; simpl in Hnew; done.
  - rewrite append_nonempty in Hnew. simpl in Hnew.
    unfold bind at 1 in Hnew. unfold bind at 1 in Hnew. unfold lift at 1 in Hnew.
    destruct (datetime_from_string_format (deadline +:+ " 10:00") TIME_FMT)
      as [time'|e] eqn:Hread; [|done].
    unfold ret at 1 in Hnew.
    unfold bind at 1 in Hnew.
    pose proof (check_names_store names' db) as Hstore.
    destruct (Reminder.check_names names' db) as [db1 [[]|e]]; [|done].
    simpl in Hstore. subst db1.
    unfold bind at 1 in Hnew.
    assert (Hend : forall recurring' : string,
      (if negb (truthy (Some time')
                && negb (bool_decide (names' = []))
                && truthy (Some (Task.content task)))
       then raise IncompleteReminder
       else
         let _reminder :=
           {| reminder_time := default "" (Some time');
              reminder_names := names';
              reminder_content := default "" (Some (Task.content task));
              reminder_recurring := recurring';
              reminder_task_id := Some task_id |} in
         do reminder_id <- reads (fun db => next_id (reminders db));
         modify (set_reminders (insert_doc _reminder)) ;;
         Reminder.from_id reminder_id) db = (db', Ok (Some r)) ->
      Reminder.time r = time'
      /\ Reminder.content r = Task.content task
      /\ Reminder.names r = names'
      /\ Reminder.task_id r = Some task_id).
    { intros recurring' Hins.
      destruct (negb (_ && _ && _)); [unfold raise in Hins; done|].
      unfold bind, reads, modify, Reminder.from_id in Hins. simpl in Hins.
      unfold reads in Hins. simpl in Hins.
      rewrite get_id_insert_doc in Hins. simpl in Hins.
      injection Hins as _ <-. done. }
    assert (Hfacts : Reminder.time r = time'
                     /\ Reminder.content r = Task.content task
                     /\ Reminder.names r = names'
                     /\ Reminder.task_id r = Some task_id).
    { destruct (truthy recurring);
        [destruct (bool_decide (_ ∈ Reminder.recurring_options)); [|done]|];
        unfold ret at 1 in Hnew; eapply Hend; exact Hnew. }
    destruct Hfacts as (Ht & Hc & Hn & Hi).
    split_and!; [by rewrite Ht | done | | | done].
    + rewrite Hn. subst names'. destruct (bool_decide (Task.name task ∈ given)) eqn:Hb; simpl.
      * by apply bool_decide_eq_true in Hb.
      * apply list_elem_of_here.
    + rewrite Hn. subst names'. cbv zeta.
      by destruct (bool_decide (Task.name task ∈ given)).
Qed.

(** C10, at a store where the code departs from it: the task of
    [june_store] has the deadline 2024-06-01. The reminder made from the
    task alone takes the content of the task and the name of its owner, but
    ["2024-06-01 10:00"], read under [dayfirst], is 6 January: the reminder
    is set for 2024-01-06 10:00:00 and not for 2024-06-01 10:00:00. With
    the deadline 2024-06-15 of [linked_store], whose last number cannot be a
    month, the same reader gives 2024-06-15 10:00:00. *)
Theorem reminder_from_task_swaps_day_and_month :
  snd (@Reminder.new_reminder dayfirst_reader None [] None None (Some 1%nat) june_store)
  = Ok (Some {| Reminder.doc_id := 1; Reminder.time := "2024-01-06 10:00:00";
                Reminder.names := ["alice"]; Reminder.recurring := "off";
                Reminder.content := "buy milk"; Reminder.task_id := Some 1%nat |})
  /\ snd (@Reminder.new_reminder dayfirst_reader None [] None None (Some 1%nat) linked_store)
     = Ok (Some {| Reminder.doc_id := 2; Reminder.time := "2024-06-15 10:00:00";
                   Reminder.names := ["alice"]; Reminder.recurring := "off";
                   Reminder.content := "buy milk"; Reminder.task_id := Some 1%nat |}).
Proof. split; vm_compute; reflexivity. Qed.

(** ** The scheduler on the example stores *)

Ltac by_evaluation := vm_compute; first [reflexivity | discriminate | done].

Ltac wf_by_evaluation :=
  unfold wf_table; apply (bool_decide_unpack _); vm_compute; exact I.

Lemma poll_daily_store_at_noon :
  @Reminder.update_reminders canonical_reader noon_15_january daily_store
  = ({| people := people daily_store; tasks := [];
        reminders :=
          [(1%nat, mk_reminder_doc "2024-01-16 10:00:00" ["alice"] "daily"
                                   "water the plants" None)] |},
     Ok [{| Reminder.doc_id := 1; Reminder.time := "2024-01-16 10:00:00";
            Reminder.names := ["alice"]; Reminder.recurring := "daily";
            Reminder.content := "water the plants"; Reminder.task_id := None |}]).
Proof. by_evaluation. Qed.

(** C4 as stated fails: at noon of 15 January the daily reminder stored
    with the time 10:00 of that day is returned with the time 10:00 of 16
    January. *)
Lemma returned_reminder_is_not_a_snapshot :
  ~ (forall (db' : DB) (shown : list Reminder.t) (r : Reminder.t) (d : reminder_doc),
       @Reminder.update_reminders canonical_reader noon_15_january daily_store
       = (db', Ok shown) ->
       r ∈ shown ->
       get_id (Reminder.doc_id r) (reminders daily_store) = Some d ->
       Reminder.time r = reminder_time d).
Proof.
  intros Hc.
  specialize (Hc _ _ _ _ poll_daily_store_at_noon (list_elem_of_here _ _) eq_refl).
  discriminate Hc.
Qed.

(** On [daily_store] at noon of 15 January: the reminder returned is what
    the store holds afterwards, with the time of 16 January. *)
Lemma returned_reminder_carries_new_time_witness :
  let r := {| Reminder.doc_id := 1; Reminder.time := "2024-01-16 10:00:00";
              Reminder.names := ["alice"]; Reminder.recurring := "daily";
              Reminder.content := "water the plants"; Reminder.task_id := None |} in
  let db' := fst (@Reminder.update_reminders canonical_reader noon_15_january daily_store) in
  Reminder.from_id 1 db' = (db', Ok (Some r))
  /\ exists d, (1%nat, d) ∈ reminders daily_store
               /\ due noon_15_january d = true
               /\ r = Reminder.with_time "2024-01-16 10:00:00" (Reminder.init (1%nat, d)).
Proof.
  intros r db'.
  apply (@returned_reminder_carries_new_time canonical_reader noon_15_january
           daily_store db' [r] r).
  - wf_by_evaluation.
  - by_evaluation.
  - apply list_elem_of_here.
  - vm_compute. apply list_elem_of_here.
Defined.

Lemma poll_corrupt_store_at_noon :
  @Reminder.update_reminders canonical_reader noon_15_january corrupt_store
  = (corrupt_store, Raise (UnparsableTime "#corrupt#")).
Proof. by_evaluation. Qed.

(** C5 as stated fails: with an unreadable document before it, the due
    reminder 2 of [corrupt_store] is not returned; the poll raises and
    returns no list. *)
Lemma poll_stops_at_unreadable_time :
  ~ (exists (db' : DB) (shown : list Reminder.t) (r : Reminder.t),
       @Reminder.update_reminders canonical_reader noon_15_january corrupt_store
       = (db', Ok shown)
       /\ r ∈ shown /\ Reminder.doc_id r = 2%nat).
Proof.
  intros (db' & shown & r & Hpoll & _).
  rewrite poll_corrupt_store_at_noon in Hpoll. discriminate Hpoll.
Qed.

(** With a readable one-off reminder before the unreadable document, the
    poll deletes the former and stops at the latter. *)
Lemma unreadable_time_aborts_poll_witness :
  @Reminder.update_reminders canonical_reader noon_15_january
    (mk_DB (people corrupt_store) []
       [(3%nat, mk_reminder_doc "2024-01-13 10:00:00" ["alice"] "off" "zeroth" None);
        (1%nat, mk_reminder_doc "#corrupt#" ["alice"] "off" "first" None);
        (2%nat, mk_reminder_doc "2024-01-14 10:00:00" ["alice"] "off" "second" None)])
  = (mk_DB (people corrupt_store) []
       [(1%nat, mk_reminder_doc "#corrupt#" ["alice"] "off" "first" None);
        (2%nat, mk_reminder_doc "2024-01-14 10:00:00" ["alice"] "off" "second" None)],
     Raise (UnparsableTime "#corrupt#")).
Proof.
  apply (@unreadable_time_aborts_poll canonical_reader noon_15_january
           (people corrupt_store) []
           [(3%nat, mk_reminder_doc "2024-01-13 10:00:00" ["alice"] "off" "zeroth" None)]
           [(2%nat, mk_reminder_doc "2024-01-14 10:00:00" ["alice"] "off" "second" None)]
           1 (mk_reminder_doc "#corrupt#" ["alice"] "off" "first" None)
           (mk_DB (people corrupt_store) [] [])
           [Reminder.init
              (3%nat, mk_reminder_doc "2024-01-13 10:00:00" ["alice"] "off" "zeroth" None)]).
  - wf_by_evaluation.
  - by_evaluation.
  - by_evaluation.
  - by_evaluation.
Defined.

(** On [one_off_store] at noon of 15 January: reminder 1 is returned and
    deleted, and a second poll returns nothing. *)
Lemma one_off_reminders_fire_once_witness :
  exists db',
    @Reminder.update_reminders canonical_reader noon_15_january one_off_store
    = (db', Ok (map Reminder.init
                    (List.filter (fun row => due noon_15_january (snd row))
                                 (reminders one_off_store))))
    /\ (forall i d, (i, d) ∈ reminders one_off_store -> due noon_15_january d = true ->
                    Reminder.from_id i db' = (db', Ok None))
    /\ @Reminder.update_reminders canonical_reader noon_15_january db' = (db', Ok []).
Proof.
  apply (@one_off_reminders_fire_once canonical_reader noon_15_january one_off_store).
  - wf_by_evaluation.
  - intros i d Hin Hdue.
    apply elem_of_cons in Hin as [[= -> ->]|Hin].
    + split; [by eexists | apply (bool_decide_unpack _); vm_compute; exact I].
    + apply elem_of_cons in Hin as [[= -> ->]|Hin].
      * vm_compute in Hdue. discriminate Hdue.
      * by apply elem_of_nil in Hin.
Defined.




Lemma poll_exact_store_on_the_hour :
  @Reminder.update_reminders canonical_reader ten_18_january exact_store
  = (exact_store, Ok []).
Proof. by_evaluation. Qed.

(** C8 as stated fails: a reminder whose stored [time] equals the canonical
    form of the clock reading is not returned. *)
Lemma equal_time_is_not_due :
  ~ (forall (i : nat) (d : reminder_doc),
       (i, d) ∈ reminders exact_store ->
       String.leb (reminder_time d) (strftime ten_18_january TIME_FMT) = true ->
       exists (db' : DB) (shown : list Reminder.t) (r : Reminder.t),
         @Reminder.update_reminders canonical_reader ten_18_january exact_store
         = (db', Ok shown)
         /\ r ∈ shown /\ Reminder.doc_id r = i).
Proof.
  intros Hc.
  destruct (Hc 1%nat _ (list_elem_of_here _ _)) as (db' & shown & r & Hpoll & Hin & _).
  - by_evaluation.
  - rewrite poll_exact_store_on_the_hour in Hpoll. injection Hpoll as _ <-.
    by apply elem_of_nil in Hin.
Qed.

(** On [one_off_store] at noon of 15 January, for the document id 1. *)
Lemma due_iff_strictly_before_witness :
  (exists r, r ∈ [Reminder.init (1%nat, mk_reminder_doc "2024-01-14 10:00:00" ["alice"]
                                                      "off" "call back" None)]
             /\ Reminder.doc_id r = 1%nat)
  <-> (exists d, (1%nat, d) ∈ reminders one_off_store
                 /\ String.ltb (reminder_time d) (strftime noon_15_january TIME_FMT) = true).
Proof.
  apply (@due_iff_strictly_before canonical_reader noon_15_january one_off_store
           (fst (@Reminder.update_reminders canonical_reader noon_15_january one_off_store))).
  - wf_by_evaluation.
  - by_evaluation.
Defined.

(** * Further properties *)

(** ** Names *)


Ltac each_char c := destruct c as [[] [] [] [] [] [] [] []]; vm_compute; try reflexivity.

Lemma name_char_idem (c : ascii) : name_char (name_char c) = name_char c.
Proof. each_char c. Qed.

Lemma name_char_not_space (c : ascii) : isspace c = false -> isspace (name_char c) = false.
Proof. each_char c; discriminate. Qed.

Lemma name_char_not_blank (c : ascii) : name_char c <> " "%char.
Proof. each_char c; discriminate. Qed.

Lemma name_char_lower (c : ascii) : lower_char (name_char c) = name_char c.
Proof. each_char c. Qed.

Lemma replace_lower (s : string) :
  replace_blank (lower s) = name_chars s.
Proof. induction s as [|c s IH]; simpl; [done|]. by rewrite IH. Qed.

Lemma map_name_char_idem (s : string) :
  name_chars (name_chars s) = name_chars s.
Proof. induction s as [|c s IH]; simpl; [done|]. by rewrite name_char_idem, IH. Qed.

Lemma lstrip_headed (s : string) : headed (lstrip s).
Proof.
  induction s as [|c s IH]; simpl; [done|].
  destruct (isspace c) eqn:Hc; [done | simpl; done].
Qed.

Lemma headed_lstrip (s : string) : headed s -> lstrip s = s.
Proof. destruct s as [|c s]; simpl; [done|]. by intros ->. Qed.

Lemma rstrip_headed (s : string) : headed s -> headed (rstrip s).
Proof.
  destruct s as [|c s]; simpl; [done|]. intros Hc.
  destruct (rstrip s); [by rewrite Hc | done].
Qed.

Lemma rstrip_cons (c : ascii) (s : string) :
  rstrip (String c s)
  = match rstrip s with
    | EmptyString => if isspace c then EmptyString else String c EmptyString
    | t => String c t
    end.
Proof. done. Qed.

Lemma rstrip_idem (s : string) : rstrip (rstrip s) = rstrip s.
Proof.
  induction s as [|c s IH]; [done|]. rewrite rstrip_cons.
  destruct (rstrip s) as [|c' r] eqn:Hr.
  - destruct (isspace c) eqn:Hc; simpl; [done | by rewrite Hc].
  - rewrite rstrip_cons, IH. done.
Qed.

Lemma map_headed (s : string) : headed s -> headed (name_chars s).
Proof. destruct s as [|c s]; simpl; [done|]. apply name_char_not_space. Qed.

Lemma map_rstrip (s : string) :
  rstrip s = s -> rstrip (name_chars s) = name_chars s.
Proof.
  induction s as [|c s IH]; [done|]. rewrite rstrip_cons.
  destruct (rstrip s) as [|c' r] eqn:Hr.
  - destruct (isspace c) eqn:Hc; [done|]. intros [= <-]. simpl.
    by rewrite name_char_not_space.
  - intros [= Hs]. cbn [name_chars]. rewrite rstrip_cons, IH by done.
    rewrite <- Hs. done.
Qed.

Lemma strip_fixed (s : string) : headed s -> rstrip s = s -> strip s = s.
Proof. intros Hh Hr. unfold strip. by rewrite headed_lstrip. Qed.

Lemma format_name_idempotent (name : string) :
  format_name (format_name name) = format_name name.
Proof.
  unfold format_name. rewrite !replace_lower.
  rewrite strip_fixed.
  - apply map_name_char_idem.
  - apply map_headed, rstrip_headed, lstrip_headed.
  - apply map_rstrip, rstrip_idem.
Qed.

(** [format_name] is idempotent: a name in the format of the store is left
    as it is. A formatted name holds no blank and no upper-case ASCII
    letter, and neither begins nor ends with white space. *)
Theorem format_name_shape (name : string) :
  format_name (format_name name) = format_name name
  /\ (forall n : nat, String.get n (format_name name) <> Some " "%char)
  /\ lower (format_name name) = format_name name
  /\ strip (format_name name) = format_name name.
Proof.
  split; [apply format_name_idempotent|].
  unfold format_name. rewrite !replace_lower. split_and!.
  - generalize (strip name). intros s. induction s as [|c s IH]; intros n; simpl.
    + done.
    + destruct n as [|n]; [|apply IH].
      intros [= Hc]. by apply name_char_not_blank in Hc.
  - generalize (strip name). intros s. induction s as [|c s IH]; simpl; [done|].
    by rewrite name_char_lower, IH.
  - apply strip_fixed.
    + apply map_headed, rstrip_headed, lstrip_headed.
    + apply map_rstrip, rstrip_idem.
Qed.

(** ** Looking documents up *)

Lemma Person_document_id (id : string) (p : person_doc) :
  Query_eq "id" (VStr id) (Person_document p) = bool_decide (person_id p = id).
Proof.
  unfold Query_eq, Person_document. simplify_map_eq.
  apply bool_decide_ext. split; congruence.
Qed.

Section Lookups.
Context {A : Type}.
Implicit Types (t : table A) (cond : A -> bool).

Lemma get_where_None cond t :
  get_where cond t = None <-> (forall i d, (i, d) ∈ t -> cond d = false).
Proof.
  unfold get_where. induction t as [|[j e] t IH]; simpl.
  - split; [intros _ i d Hin; by apply elem_of_nil in Hin | done].
  - destruct (cond e) eqn:He.
    + split; [done|]. intros Hall. rewrite (Hall j e) in He; [done | apply list_elem_of_here].
    + rewrite IH. split.
      * intros Hall i d Hin. apply elem_of_cons in Hin as [[= -> ->]|Hin]; eauto.
      * intros Hall i d Hin. apply (Hall i d). by apply list_elem_of_further.
Qed.

Lemma get_where_ext cond cond' t :
  (forall d, cond d = cond' d) -> get_where cond t = get_where cond' t.
Proof.
  intros Hext. unfold get_where. induction t as [|[j e] t IH]; simpl; [done|].
  by rewrite Hext, IH.
Qed.

Lemma get_where_Some cond t i d :
  get_where cond t = Some (i, d) -> (i, d) ∈ t /\ cond d = true.
Proof.
  unfold get_where. intros Hf. apply List.find_some in Hf as [Hin Hc].
  split; [by apply list_elem_of_In | done].
Qed.

Lemma get_where_snoc cond t i d :
  get_where cond t = None ->
  get_where cond (t ++ [(i, d)]) = if cond d then Some (i, d) else None.
Proof.
  unfold get_where. induction t as [|[j e] t IH]; simpl; [done|].
  destruct (cond e); [done | exact IH].
Qed.

Lemma get_id_snoc_old (i j : nat) (d : A) t :
  i <> j -> get_id i (t ++ [(j, d)]) = get_id i t.
Proof.
  intros Hne. induction t as [|[k e] t IH]; simpl.
  - by apply Nat.eqb_neq in Hne as ->.
  - by destruct (Nat.eqb i k).
Qed.

Lemma remove_id_insert_doc (d : A) t : remove_id (next_id t) (insert_doc d t) = t.
Proof.
  unfold insert_doc.
  rewrite (remove_id_middle (next_id t) d t []);
    [apply app_nil_r | apply next_id_fresh | apply not_elem_of_nil].
Qed.

Lemma wf_insert_doc (d : A) t : wf_table t -> wf_table (insert_doc d t).
Proof.
  unfold wf_table, insert_doc. rewrite ids_app. simpl. intros Hwf.
  apply NoDup_app. split_and!; [done | | apply NoDup_singleton].
  intros i Hi Hn. apply list_elem_of_singleton in Hn as ->.
  by apply (next_id_fresh t).
Qed.
End Lookups.

(** ** Registering a person *)

(** [Person.new_person] in one step. *)
Lemma new_person_effect (name pretty_name id : string) (db : DB) :
  Person.new_person name pretty_name id db
  = match get_where (fun p => bool_decide (person_name p = format_name name)) (people db) with
    | Some _ => (db, Raise (PersonNameExists (format_name name)))
    | None =>
        match get_where (fun p => bool_decide (person_id p = id)) (people db) with
        | Some _ => (db, Raise (PersonIdExists id))
        | None =>
            let doc := {| person_name := format_name name;
                          person_pretty_name := pretty_name; person_id := id |} in
            (set_people (insert_doc doc) db,
             Ok (Some (Person.init (next_id (people db), doc))))
        end
    end.
Proof.
  unfold Person.new_person, Person.from_name, Person.from_id.
  rewrite format_name_idempotent.
  unfold bind, reads, modify, raise. simpl.
  rewrite (get_where_ext _ (fun p => bool_decide (person_name p = format_name name)))
    by (intros p; apply Person_document_name).
  destruct (get_where _ (people db)) as [e|]; simpl; [done|].
  rewrite (get_where_ext (fun p => Query_eq "id" (VStr id) (Person_document p))
                         (fun p => bool_decide (person_id p = id)))
    by (intros p; apply Person_document_id).
  destruct (get_where _ (people db)) as [e|]; simpl; [done|].
  destruct db as [ppl tsk rem]. unfold set_people. simpl.
  by rewrite get_id_insert_doc.
Qed.

Lemma from_name_effect (name : string) (db : DB) :
  Person.from_name name db
  = (db, Ok (Person.init
               <$> get_where (fun p => bool_decide (person_name p = format_name name))
                             (people db))).
Proof.
  unfold Person.from_name, reads.
  rewrite (get_where_ext _ (fun p => bool_decide (person_name p = format_name name)))
    by (intros p; apply Person_document_name).
  done.
Qed.

Lemma from_id_effect (id : string) (db : DB) :
  Person.from_id id db
  = (db, Ok (Person.init
               <$> get_where (fun p => bool_decide (person_id p = id)) (people db))).
Proof.
  unfold Person.from_id, reads.
  rewrite (get_where_ext _ (fun p => bool_decide (person_id p = id)))
    by (intros p; apply Person_document_id).
  done.
Qed.

(** What a successful registration has found and done. *)
Lemma new_person_Ok (name pretty_name id : string) (db db' : DB) (p : Person.t) :
  Person.new_person name pretty_name id db = (db', Ok (Some p)) ->
  let doc := {| person_name := format_name name;
                person_pretty_name := pretty_name; person_id := id |} in
  get_where (fun q => bool_decide (person_name q = format_name name)) (people db) = None
  /\ get_where (fun q => bool_decide (person_id q = id)) (people db) = None
  /\ db' = set_people (insert_doc doc) db
  /\ p = Person.init (next_id (people db), doc).
Proof.
  rewrite new_person_effect.
  destruct (get_where _ (people db)) as [e|] eqn:Hname; [done|].
  destruct (get_where (fun p => bool_decide (person_id p = id)) (people db))
    as [e|] eqn:Hid; [done|].
  intros [= <- <-]. done.
Qed.

(** A person that has been registered is found again, under any spelling
    of the name that [format_name] maps to the same name, and under the
    external id; the tables of tasks and reminders are not touched. *)
Theorem new_person_registers (name pretty_name id : string) (db db' : DB) (p : Person.t) :
  Person.new_person name pretty_name id db = (db', Ok (Some p)) ->
  Person.name p = format_name name
  /\ Person.pretty_name p = pretty_name
  /\ Person.id p = id
  /\ (forall name', format_name name' = format_name name ->
        Person.from_name name' db' = (db', Ok (Some p)))
  /\ Person.from_id id db' = (db', Ok (Some p))
  /\ tasks db' = tasks db
  /\ reminders db' = reminders db.
Proof.
  intros Hnew. apply new_person_Ok in Hnew as (Hname & Hid & -> & ->).
  split_and!; try done.
  - intros name' Hsame. rewrite from_name_effect. simpl. rewrite Hsame.
    unfold insert_doc. rewrite get_where_snoc by done. simpl.
    by rewrite bool_decide_true.
  - rewrite from_id_effect. simpl.
    unfold insert_doc. rewrite get_where_snoc by done. simpl.
    by rewrite bool_decide_true.
Qed.

Lemma new_person_registers_witness :
  let p := {| Person.doc_id := 2; Person.name := "bob_the_builder";
              Person.pretty_name := "Bob"; Person.id := "77" |} in
  let db' := fst (Person.new_person " Bob The Builder" "Bob" "77" linked_store) in
  Person.name p = format_name " Bob The Builder"
  /\ Person.pretty_name p = "Bob"
  /\ Person.id p = "77"
  /\ (forall name', format_name name' = format_name " Bob The Builder" ->
        Person.from_name name' db' = (db', Ok (Some p)))
  /\ Person.from_id "77" db' = (db', Ok (Some p))
  /\ tasks db' = tasks linked_store
  /\ reminders db' = reminders linked_store.
Proof.
  intros p db'.
  apply (new_person_registers " Bob The Builder" "Bob" "77" linked_store db' p).
  vm_compute. reflexivity.
Defined.

(** Once a person is registered, a second registration under a name with
    the same format is refused with the name error, and one under another,
    free name but the same external id with the id error; the store is left
    as it is. *)
Theorem new_person_refuses_duplicates (name pretty_name id : string) (db db' : DB)
    (p : Person.t) :
  Person.new_person name pretty_name id db = (db', Ok (Some p)) ->
  (forall name2 pretty2 id2,
      format_name name2 = format_name name ->
      Person.new_person name2 pretty2 id2 db'
      = (db', Raise (PersonNameExists (format_name name2))))
  /\ (forall name2 pretty2,
        Person.from_name name2 db' = (db', Ok None) ->
        Person.new_person name2 pretty2 id db' = (db', Raise (PersonIdExists id))).
Proof.
  intros Hnew. apply new_person_Ok in Hnew as (Hname & Hid & -> & _).
  split.
  - intros name2 pretty2 id2 Hsame.
    rewrite new_person_effect. cbn [people set_people]. rewrite Hsame.
    unfold insert_doc. rewrite get_where_snoc by done. cbn [person_name].
    by rewrite bool_decide_true.
  - intros name2 pretty2 Hfree.
    rewrite from_name_effect in Hfree.
    injection Hfree as Hfree. apply fmap_None in Hfree.
    rewrite new_person_effect. cbn [people set_people] in *. rewrite Hfree.
    unfold insert_doc. rewrite get_where_snoc by done. cbn [person_id].
    by rewrite bool_decide_true.
Qed.

Lemma new_person_refuses_duplicates_witness :
  let db' := fst (Person.new_person "Bob" "Bob" "77" linked_store) in
  (forall name2 pretty2 id2,
      format_name name2 = format_name "Bob" ->
      Person.new_person name2 pretty2 id2 db'
      = (db', Raise (PersonNameExists (format_name name2))))
  /\ (forall name2 pretty2,
        Person.from_name name2 db' = (db', Ok None) ->
        Person.new_person name2 pretty2 "77" db' = (db', Raise (PersonIdExists "77"))).
Proof.
  intros db'.
  apply (new_person_refuses_duplicates "Bob" "Bob" "77" linked_store db'
           {| Person.doc_id := 2; Person.name := "bob"; Person.pretty_name := "Bob";
              Person.id := "77" |}).
  vm_compute. reflexivity.
Defined.

(** [new_person] keeps the table of people well formed, whatever it
    answers: ids, names and external ids stay pairwise different and the
    names stay in the format of [format_name]. *)
Theorem new_person_keeps_people_unique (name pretty_name id : string) (db : DB) :
  people_unique (people db) ->
  people_unique (people (fst (Person.new_person name pretty_name id db))).
Proof.
  intros (Hwf & Hnames & Hids & Hfmt). rewrite new_person_effect.
  destruct (get_where _ (people db)) as [e|] eqn:Hname; [done|].
  destruct (get_where (fun p => bool_decide (person_id p = id)) (people db))
    as [e|] eqn:Hid; [done|].
  simpl. unfold people_unique, insert_doc. split_and!.
  - by apply wf_insert_doc.
  - rewrite map_app. simpl. apply NoDup_app. split_and!; [done | | apply NoDup_singleton].
    intros n Hn Hn'. apply list_elem_of_singleton in Hn' as ->.
    apply list_elem_of_fmap in Hn as ([i q] & Hq & Hin). simpl in Hq.
    rewrite get_where_None in Hname. specialize (Hname i q Hin).
    apply bool_decide_eq_false in Hname. done.
  - rewrite map_app. simpl. apply NoDup_app. split_and!; [done | | apply NoDup_singleton].
    intros n Hn Hn'. apply list_elem_of_singleton in Hn' as ->.
    apply list_elem_of_fmap in Hn as ([i q] & Hq & Hin). simpl in Hq.
    rewrite get_where_None in Hid. specialize (Hid i q Hin).
    apply bool_decide_eq_false in Hid. done.
  - apply Forall_app. split; [done|]. apply Forall_singleton. simpl.
    apply format_name_idempotent.
Qed.

Lemma new_person_keeps_people_unique_witness :
  people_unique (people (fst (Person.new_person "Bob" "Bob" "77" linked_store))).
Proof.
  apply (new_person_keeps_people_unique "Bob" "Bob" "77" linked_store).
  unfold people_unique, wf_table. split_and!.
  - apply (bool_decide_unpack _). vm_compute. exact I.
  - apply (bool_decide_unpack _). vm_compute. exact I.
  - apply (bool_decide_unpack _). vm_compute. exact I.
  - repeat constructor.
Defined.

(** ** Tasks *)

Section TableFrames.
Context {A : Type}.
Implicit Types (t : table A).

Lemma get_id_remove_id_same (i : nat) t : get_id i (remove_id i t) = None.
Proof.
  induction t as [|[j d] t IH]; simpl; [done|].
  destruct (Nat.eqb_spec j i) as [->|Hne]; simpl; [done|].
  destruct (Nat.eqb_spec i j); [congruence | done].
Qed.

Lemma get_id_remove_id_other (i j : nat) t :
  j <> i -> get_id j (remove_id i t) = get_id j t.
Proof.
  intros Hne. induction t as [|[k d] t IH]; simpl; [done|].
  destruct (Nat.eqb_spec k i) as [->|Hki]; simpl.
  - destruct (Nat.eqb_spec j i); [congruence | done].
  - by rewrite IH.
Qed.

Lemma remove_id_idem (i : nat) t : remove_id i (remove_id i t) = remove_id i t.
Proof.
  apply remove_id_fresh. apply get_id_None. apply get_id_remove_id_same.
Qed.

Lemma get_id_insert_doc_old (j : nat) (d : A) t :
  j ∈ ids t -> get_id j (insert_doc d t) = get_id j t.
Proof.
  intros Hin. unfold insert_doc. apply get_id_snoc_old.
  intros ->. by apply (next_id_fresh t).
Qed.
End TableFrames.

(** [Person.add_task] in one step. *)
Lemma add_task_effect `{Dateutil} (self : Person.t) (content : string)
    (deadline : option string) (db : DB) :
  Person.add_task self content deadline db
  = let inserted doc :=
      (set_tasks (insert_doc doc) db, Ok (Some (Task.init (next_id (tasks db)) doc))) in
    if String.eqb content "" then (db, Raise EmptyTask)
    else if truthy deadline then
      match parse (default "" deadline) with
      | Some dt =>
          inserted {| task_name := Person.name self; task_content := content;
                      task_deadline := Some (strftime dt DATE_FMT) |}
      | None => (db, Raise (UnparsableTime (default "" deadline)))
      end
    else inserted {| task_name := Person.name self; task_content := content;
                     task_deadline := None |}.
Proof.
  unfold Person.add_task. destruct (String.eqb content ""); [done|].
  destruct db as [ppl tsk rem].
  destruct (truthy deadline).
  - unfold bind, lift, datetime_from_string_format.
    destruct (parse (default "" deadline)); [|done].
    unfold ret, reads, modify, Task.from_id, reads, set_tasks. simpl.
    by rewrite get_id_insert_doc.
  - unfold bind, ret, reads, modify, Task.from_id, reads, set_tasks. simpl.
    by rewrite get_id_insert_doc.
Qed.

(** A deadline that cannot be read makes [add_task] raise and leave the
    store as it is; one that can is stored in the form [yyyy-mm-dd] of what
    the reader makes of it, and the task is returned as stored. An empty
    deadline counts as none. *)
Theorem add_task_deadline `{Dateutil} (self : Person.t) (c : ascii) (content : string)
    (c' : ascii) (deadline : string) (db : DB) :
  Person.add_task self (String c content) (Some (String c' deadline)) db
  = match parse (String c' deadline) with
    | Some dt =>
        let doc := {| task_name := Person.name self; task_content := String c content;
                      task_deadline := Some (strftime dt DATE_FMT) |} in
        (set_tasks (insert_doc doc) db,
         Ok (Some {| Task.doc_id := next_id (tasks db); Task.name := Person.name self;
                     Task.content := String c content;
                     Task.deadline := Some (strftime dt DATE_FMT) |}))
    | None => (db, Raise (UnparsableTime (String c' deadline)))
    end
  /\ Person.add_task self (String c content) (Some "") db
     = Person.add_task self (String c content) None db.
Proof.
  rewrite !add_task_effect. simpl. split; [|done].
  by destruct (parse (String c' deadline)).
Qed.

(** What a successful [add_task] leaves: the new task is owned by the
    person, sits under an id that was not in use, and is found under it; the
    tasks that were there are found as before; people and reminders are not
    touched; unique ids stay unique. *)
Theorem add_task_frame `{Dateutil} (self : Person.t) (content : string)
    (deadline : option string) (db db' : DB) (task : Task.t) :
  Person.add_task self content deadline db = (db', Ok (Some task)) ->
  Task.name task = Person.name self
  /\ Task.content task = content
  /\ (Task.doc_id task ∉ ids (tasks db))
  /\ Task.from_id (Task.doc_id task) db' = (db', Ok (Some task))
  /\ (forall j, j ∈ ids (tasks db) -> get_id j (tasks db') = get_id j (tasks db))
  /\ people db' = people db
  /\ reminders db' = reminders db
  /\ (wf_table (tasks db) -> wf_table (tasks db')).
Proof.
  rewrite add_task_effect. cbv zeta.
  destruct (String.eqb content ""); [done|].
  assert (Hins : forall doc,
    (set_tasks (insert_doc doc) db, Ok (Some (Task.init (next_id (tasks db)) doc)))
    = (db', Ok (Some task)) ->
    task_name doc = Person.name self -> task_content doc = content ->
    Task.name task = Person.name self
    /\ Task.content task = content
    /\ (Task.doc_id task ∉ ids (tasks db))
    /\ Task.from_id (Task.doc_id task) db' = (db', Ok (Some task))
    /\ (forall j, j ∈ ids (tasks db) -> get_id j (tasks db') = get_id j (tasks db))
    /\ people db' = people db
    /\ reminders db' = reminders db
    /\ (wf_table (tasks db) -> wf_table (tasks db'))).
  { intros doc [= <- <-] Hn Hc. simpl. split_and!; try done.
    - apply next_id_fresh.
    - unfold Task.from_id, reads. simpl. by rewrite get_id_insert_doc.
    - intros j Hj. by apply get_id_insert_doc_old.
    - apply wf_insert_doc. }
  destruct (truthy deadline).
  - destruct (parse (default "" deadline)); [|done]. intros Heq. by eapply Hins.
  - intros Heq. by eapply Hins.
Qed.

Lemma add_task_frame_witness :
  let task := {| Task.doc_id := 2; Task.name := "alice"; Task.content := "feed the cat";
                 Task.deadline := Some "2024-07-20" |} in
  let db' := fst (@Person.add_task alice "feed the cat" (Some "2024-07-20 18:30")
                    canonical_reader linked_store) in
  Task.name task = Person.name alice
  /\ Task.content task = "feed the cat"
  /\ (Task.doc_id task ∉ ids (tasks linked_store))
  /\ Task.from_id (Task.doc_id task) db' = (db', Ok (Some task))
  /\ (forall j, j ∈ ids (tasks linked_store) ->
        get_id j (tasks db') = get_id j (tasks linked_store))
  /\ people db' = people linked_store
  /\ reminders db' = reminders linked_store
  /\ (wf_table (tasks linked_store) -> wf_table (tasks db')).
Proof.
  intros task db'.
  apply (@add_task_frame canonical_reader alice "feed the cat" (Some "2024-07-20 18:30")
           linked_store db' task).
  vm_compute. reflexivity.
Defined.

Lemma todos_effect (self : Person.t) (db : DB) :
  Person.todos self db
  = (db, Ok (map (fun e => Task.init (fst e) (snd e))
                 (search (fun k => bool_decide (task_name k = Person.name self))
                         (tasks db)))).
Proof.
  unfold Person.todos, reads, search. do 3 f_equal.
  apply List.filter_ext. intros [i k]. apply Task_document_name.
Qed.

(** After a task has been added, the to-do list of its owner holds the new
    task and the tasks that were there, each as often as before and nothing
    else, and the lists of people with another name are as before. *)
Theorem add_task_extends_todos `{Dateutil} (self : Person.t) (content : string)
    (deadline : option string) (db db' : DB) (task : Task.t) :
  Person.add_task self content deadline db = (db', Ok (Some task)) ->
  (exists before after,
      Person.todos self db = (db, Ok before)
      /\ Person.todos self db' = (db', Ok after)
      /\ after ≡ₚ task :: before)
  /\ (forall other, Person.name other <> Person.name self ->
        snd (Person.todos other db') = snd (Person.todos other db)).
Proof.
  rewrite add_task_effect. cbv zeta.
  destruct (String.eqb content ""); [done|].
  assert (Hins : forall doc,
    (set_tasks (insert_doc doc) db, Ok (Some (Task.init (next_id (tasks db)) doc)))
    = (db', Ok (Some task)) ->
    task_name doc = Person.name self ->
    (exists before after,
        Person.todos self db = (db, Ok before)
        /\ Person.todos self db' = (db', Ok after)
        /\ after ≡ₚ task :: before)
    /\ (forall other, Person.name other <> Person.name self ->
          snd (Person.todos other db') = snd (Person.todos other db))).
  { intros doc [= <- <-] Hn. split.
    - do 2 eexists. split; [apply todos_effect|]. split; [apply todos_effect|].
      simpl. unfold insert_doc, search.
      rewrite List.filter_app, map_app. simpl.
      rewrite bool_decide_true by done. simpl.
      symmetry. apply Permutation_cons_append.
    - intros other Hother. rewrite !todos_effect. simpl. unfold insert_doc, search.
      rewrite List.filter_app. simpl.
      rewrite bool_decide_false by congruence. by rewrite app_nil_r. }
  destruct (truthy deadline).
  - destruct (parse (default "" deadline)); [|done]. intros Heq. by eapply Hins.
  - intros Heq. by eapply Hins.
Qed.

Lemma add_task_extends_todos_witness :
  let task := {| Task.doc_id := 2; Task.name := "alice"; Task.content := "feed the cat";
                 Task.deadline := None |} in
  let db' := fst (@Person.add_task alice "feed the cat" None canonical_reader linked_store) in
  (exists before after,
      Person.todos alice linked_store = (linked_store, Ok before)
      /\ Person.todos alice db' = (db', Ok after)
      /\ after ≡ₚ task :: before)
  /\ (forall other, Person.name other <> Person.name alice ->
        snd (Person.todos other db') = snd (Person.todos other linked_store)).
Proof.
  intros task db'.
  apply (@add_task_extends_todos canonical_reader alice "feed the cat" None
           linked_store db' task).
  vm_compute. reflexivity.
Defined.

(** Removing the task that has just been added gives the store back as it
    was, and returns the task. *)
Theorem add_task_then_remove_task `{Dateutil} (self : Person.t) (content : string)
    (deadline : option string) (db db' : DB) (task : Task.t) :
  Person.add_task self content deadline db = (db', Ok (Some task)) ->
  Task.remove_task (Task.doc_id task) db' = (db, Ok (Some task)).
Proof.
  rewrite add_task_effect. cbv zeta.
  destruct (String.eqb content ""); [done|].
  assert (Hins : forall doc,
    (set_tasks (insert_doc doc) db, Ok (Some (Task.init (next_id (tasks db)) doc)))
    = (db', Ok (Some task)) ->
    Task.remove_task (Task.doc_id task) db' = (db, Ok (Some task))).
  { intros doc [= <- <-]. rewrite remove_task_effect. simpl.
    rewrite get_id_insert_doc. destruct db as [ppl tsk rem]. unfold set_tasks. simpl.
    by rewrite remove_id_insert_doc. }
  destruct (truthy deadline).
  - destruct (parse (default "" deadline)); [|done]. apply Hins.
  - apply Hins.
Qed.

Lemma add_task_then_remove_task_witness :
  Task.remove_task 2
    (fst (@Person.add_task alice "feed the cat" None canonical_reader linked_store))
  = (linked_store,
     Ok (Some {| Task.doc_id := 2; Task.name := "alice"; Task.content := "feed the cat";
                 Task.deadline := None |})).
Proof.
  apply (@add_task_then_remove_task canonical_reader alice "feed the cat" None linked_store
           (fst (@Person.add_task alice "feed the cat" None canonical_reader linked_store))
           {| Task.doc_id := 2; Task.name := "alice"; Task.content := "feed the cat";
              Task.deadline := None |}).
  vm_compute. reflexivity.
Defined.

(** [remove_task] removes one task: it returns the task stored under the
    id, or nothing when there is none; afterwards the id is not found and a
    second call returns nothing and changes nothing; the tasks under other
    ids are found as before; people and reminders are not touched. *)
Theorem remove_task_removes_one (task_id : nat) (db : DB) :
  let db' := fst (Task.remove_task task_id db) in
  snd (Task.remove_task task_id db) = snd (Task.from_id task_id db)
  /\ Task.from_id task_id db' = (db', Ok None)
  /\ Task.remove_task task_id db' = (db', Ok None)
  /\ (forall j, j <> task_id -> get_id j (tasks db') = get_id j (tasks db))
  /\ people db' = people db
  /\ reminders db' = reminders db.
Proof.
  rewrite !remove_task_effect. simpl. split_and!; try done.
  - unfold Task.from_id, reads. simpl. by rewrite get_id_remove_id_same.
  - rewrite remove_task_effect. simpl. rewrite get_id_remove_id_same. simpl.
    destruct db as [ppl tsk rem]. unfold set_tasks. simpl. by rewrite remove_id_idem.
  - intros j Hj. by apply get_id_remove_id_other.
Qed.

(** ** Removing a person, once more *)

Lemma elem_of_remove_found_keep (i : nat) (k : task_doc) (found : list (nat * task_doc)) :
  forall t : table task_doc,
    (i, k) ∈ t -> (i ∉ ids found) -> (i, k) ∈ remove_found found t.
Proof.
  induction found as [|[j k'] found IH]; simpl; intros t Hin Hn; [done|].
  apply not_elem_of_cons in Hn as [Hne Hn].
  apply IH; [|done]. apply elem_of_remove_id. done.
Qed.

(** After [remove_person] the name is not found and the to-do list under
    it is empty, while the people with another name and, the ids of the
    tasks being unique, the tasks of other owners are still in the store. *)
Theorem remove_person_forgets (name : string) (db : DB) :
  wf_table (tasks db) ->
  let db' := fst (Person.remove_person name db) in
  Person.from_name name db' = (db', Ok None)
  /\ (forall self, Person.name self = format_name name ->
        Person.todos self db' = (db', Ok []))
  /\ (forall i p, (i, p) ∈ people db -> person_name p <> format_name name ->
        (i, p) ∈ people db')
  /\ (forall i k, (i, k) ∈ tasks db -> task_name k <> format_name name ->
        (i, k) ∈ tasks db').
Proof.
  intros Hwf db'.
  destruct (remove_person_people_and_tasks name db) as (Hpeople & Htasks & _).
  fold db' in Hpeople, Htasks.
  split_and!.
  - rewrite from_name_effect. do 2 f_equal.
    apply fmap_None, get_where_None. intros i p Hin.
    apply bool_decide_eq_false. eauto.
  - intros self Hself. rewrite todos_effect. do 2 f_equal.
    rewrite Hself. unfold search.
    induction (tasks db') as [|[i k] t IH]; [done|]. simpl.
    rewrite bool_decide_false.
    + apply IH. intros j k' Hin. apply (Htasks j). by apply list_elem_of_further.
    + apply (Htasks i). apply list_elem_of_here.
  - intros i p Hin Hne. subst db'. rewrite remove_person_effect. simpl.
    unfold remove_where. apply list_elem_of_In, List.filter_In.
    split; [by apply list_elem_of_In|]. simpl.
    by apply negb_true_iff, bool_decide_eq_false.
  - intros i k Hin Hne. subst db'. rewrite remove_person_effect. simpl.
    apply elem_of_remove_found_keep; [done|].
    unfold ids. rewrite list_elem_of_fmap. intros ([j k'] & Hj & Hin'). simpl in Hj. subst j.
    unfold search in Hin'. apply list_elem_of_In, List.filter_In in Hin' as [Hin' Hc].
    apply list_elem_of_In in Hin'. simpl in Hc. apply bool_decide_eq_true in Hc.
    assert (k' = k) as ->.
    { apply (elem_of_get_id _ _ _ Hwf) in Hin, Hin'. congruence. }
    done.
Qed.

Lemma remove_person_forgets_witness :
  let db' := fst (Person.remove_person "Alice" linked_store) in
  Person.from_name "Alice" db' = (db', Ok None)
  /\ (forall self, Person.name self = format_name "Alice" ->
        Person.todos self db' = (db', Ok []))
  /\ (forall i p, (i, p) ∈ people linked_store -> person_name p <> format_name "Alice" ->
        (i, p) ∈ people db')
  /\ (forall i k, (i, k) ∈ tasks linked_store -> task_name k <> format_name "Alice" ->
        (i, k) ∈ tasks db').
Proof.
  apply (remove_person_forgets "Alice" linked_store).
  unfold wf_table. apply (bool_decide_unpack _). vm_compute. exact I.
Defined.

(** ** The to-do list as text *)

Lemma append_empty (s t : string) : s +:+ t = "" -> s = "" /\ t = "".
Proof. destruct s; simpl; [done | discriminate]. Qed.

Lemma todo_lines_nonempty (tasks : list Task.t) (acc : string) :
  acc <> "" ->
  foldl (fun _todo_list task =>
           _todo_list +:+ (Task.__str__ task +:+ String "010"%char EmptyString))
        acc tasks <> "".
Proof.
  revert acc. induction tasks as [|task tasks IH]; intros acc Hacc; simpl; [done|].
  apply IH. intros Hempty. by apply append_empty in Hempty as [? _].
Qed.

(** The text of the to-do list is empty exactly when the person has no
    task. *)
Theorem todo_list_empty (self : Person.t) (db : DB) :
  snd (Person.todo_list self db) = Ok "" <-> snd (Person.todos self db) = Ok [].
Proof.
  unfold Person.todo_list, bind, ret. rewrite todos_effect. simpl.
  destruct (map _ _) as [|task tasks]; simpl; [done|].
  split; [|done]. intros [= Hempty]. exfalso.
  revert Hempty. apply todo_lines_nonempty.
  intros Hline. apply append_empty in Hline as [_ Hline].
  apply append_empty in Hline as [_ Hline]. discriminate Hline.
Qed.

(** ** Creating and removing reminders *)

Lemma check_names_cons (name : string) (names : list string) (db : DB) :
  Reminder.check_names (name :: names) db
  = if negb (String.eqb name "")
       && negb (bool_decide
                  (is_Some (get_where
                              (fun p => bool_decide (person_name p = format_name name))
                              (people db))))
    then (db, Raise (UnknownPerson name))
    else Reminder.check_names names db.
Proof.
  unfold Reminder.check_names. cbn [for_each]. unfold bind at 1. unfold bind at 1.
  rewrite from_name_effect.
  destruct (get_where _ (people db)) as [person|]; simpl;
    by destruct (String.eqb name "").
Qed.

Lemma check_names_cases (names : list string) (db : DB) :
  (Reminder.check_names names db = (db, Ok tt)
   /\ forall name, name ∈ names -> name <> "" ->
        exists p, Person.from_name name db = (db, Ok (Some p)))
  \/ exists e, Reminder.check_names names db = (db, Raise e).
Proof.
  induction names as [|name names IH].
  - left. split; [done|]. intros name Hin. by apply elem_of_nil in Hin.
  - rewrite check_names_cons.
    destruct (String.eqb_spec name "") as [->|Hname]; simpl.
    + destruct IH as [[IH Hall]|[e IH]]; [left | right; by exists e].
      split; [done|]. intros name Hin Hne.
      apply elem_of_cons in Hin as [->|Hin]; [done | exact (Hall _ Hin Hne)].
    + destruct (get_where _ (people db)) as [person|] eqn:Hfound.
      * simpl.
        destruct IH as [[IH Hall]|[e IH]]; [left | right; by exists e].
        split; [done|]. intros name' Hin Hne.
        apply elem_of_cons in Hin as [->|Hin]; [|exact (Hall _ Hin Hne)].
        exists (Person.init person). rewrite from_name_effect. by rewrite Hfound.
      * simpl. right. by eexists.
Qed.

(** [Reminder.new_reminder] either raises and leaves the store as it is, or
    appends one document with the fields below. *)
Lemma new_reminder_cases `{Dateutil} (time : option string) (names : list string)
    (recurring content : option string) (task_id : option nat) (db : DB) :
  (exists e, Reminder.new_reminder time names recurring content task_id db = (db, Raise e))
  \/ exists doc,
       Reminder.new_reminder time names recurring content task_id db
       = (set_reminders (insert_doc doc) db,
          Ok (Some (Reminder.init (next_id (reminders db), doc))))
       /\ (exists dt, reminder_time doc = strftime dt TIME_FMT)
       /\ reminder_time doc <> ""
       /\ reminder_names doc <> []
       /\ reminder_content doc <> ""
       /\ reminder_recurring doc ∈ "off" :: Reminder.recurring_options
       /\ (forall name, name ∈ reminder_names doc -> name <> "" ->
             exists p, Person.from_name name db = (db, Ok (Some p)))
       /\ reminder_task_id doc = (if truthy_id task_id then task_id else None)
       /\ (truthy_id task_id = true ->
             exists task, Task.from_id (default 0%nat task_id) db = (db, Ok (Some task))
                          /\ Task.name task ∈ reminder_names doc)
       /\ (truthy_id task_id = false ->
             truthy time = true /\ truthy content = true
             /\ reminder_content doc = default "" content
             /\ reminder_names doc
                = map format_name
                      (List.filter (fun name => negb (String.eqb name "")) names)).
Proof.
  destruct (Reminder.new_reminder time names recurring content task_id db)
    as [dbx rx] eqn:Hnew.
  unfold Reminder.new_reminder in Hnew.
  set (given := map format_name
                    (List.filter (fun name => negb (String.eqb name "")) names)) in *.
  (* the part shared by both branches, once time, names and content are settled *)
  assert (Hrest : forall (time1 : option string) (names1 : list string)
                         (content1 : option string),
    (truthy_id task_id = true ->
       exists task, Task.from_id (default 0%nat task_id) db = (db, Ok (Some task))
                    /\ Task.name task ∈ names1) ->
    (truthy_id task_id = false -> time1 = time /\ content1 = content /\ names1 = given) ->
    let k :=
      (do time <-
         (if truthy time1
          then do s <- lift (datetime_from_string_format (default "" time1) TIME_FMT);
               ret (Some s)
          else ret time1);
       Reminder.check_names names1 ;;
       do recurring <-
         (if truthy recurring then
            let recurring := lower (default "" recurring) in
            if bool_decide (recurring ∈ Reminder.recurring_options)
            then ret recurring
            else raise BadRecurring
          else ret "off");
       if negb (truthy time && negb (bool_decide (names1 = [])) && truthy content1)
       then raise IncompleteReminder
       else
         let _reminder :=
           {| reminder_time := default "" time;
              reminder_names := names1;
              reminder_content := default "" content1;
              reminder_recurring := recurring;
              reminder_task_id := if truthy_id task_id then task_id else None |} in
         do reminder_id <- reads (fun db => next_id (reminders db));
         modify (set_reminders (insert_doc _reminder)) ;;
         Reminder.from_id reminder_id) in
    forall (dbx : DB) (rx : result (option Reminder.t)),
      k db = (dbx, rx) ->
      (exists e, (dbx, rx) = (db, Raise e))
      \/ exists doc,
           (dbx, rx) = (set_reminders (insert_doc doc) db,
                        Ok (Some (Reminder.init (next_id (reminders db), doc))))
           /\ (exists dt, reminder_time doc = strftime dt TIME_FMT)
           /\ reminder_time doc <> ""
           /\ reminder_names doc <> []
           /\ reminder_content doc <> ""
           /\ reminder_recurring doc ∈ "off" :: Reminder.recurring_options
           /\ (forall name, name ∈ reminder_names doc -> name <> "" ->
                 exists p, Person.from_name name db = (db, Ok (Some p)))
           /\ reminder_task_id doc = (if truthy_id task_id then task_id else None)
           /\ (truthy_id task_id = true ->
                 exists task, Task.from_id (default 0%nat task_id) db = (db, Ok (Some task))
                              /\ Task.name task ∈ reminder_names doc)
           /\ (truthy_id task_id = false ->
                 truthy time = true /\ truthy content = true
                 /\ reminder_content doc = default "" content
                 /\ reminder_names doc = given)).
  { intros time1 names1 content1 Htask Hplain k db1 r1 Hk. subst k. cbv zeta in Hk.
    unfold bind at 1 in Hk.
    (* the time *)
    assert (Htime : exists r,
      (if truthy time1
       then do s <- lift (datetime_from_string_format (default "" time1) TIME_FMT);
            ret (Some s)
       else ret time1) db = (db, r)
      /\ match r with
         | Ok t => (truthy t = true -> truthy time1 = true
                                       /\ exists dt, default "" t = strftime dt TIME_FMT)
         | Raise _ => True
         end).
    { destruct (truthy time1) eqn:Ht.
      - unfold bind, lift, datetime_from_string_format.
        destruct (parse (default "" time1)) as [dt|]; eexists; (split; [done|]); [|done].
        simpl. intros _. split; [done | by exists dt].
      - eexists. split; [done|]. simpl. congruence. }
    destruct Htime as (r & Hrw & Hr). rewrite Hrw in Hk. clear Hrw.
    destruct r as [time2|e]; [|left; exists e; congruence].
    unfold bind at 1 in Hk.
    destruct (check_names_cases names1 db) as [[Hrw Hknown]|[e Hrw]];
      rewrite Hrw in Hk; clear Hrw; [|left; exists e; congruence].
    unfold bind at 1 in Hk.
    assert (Hrec : exists r,
      (if truthy recurring then
         if bool_decide (lower (default "" recurring) ∈ Reminder.recurring_options)
         then ret (lower (default "" recurring))
         else raise BadRecurring
       else ret "off") db = (db, r)
      /\ match r with
         | Ok rec => rec ∈ "off" :: Reminder.recurring_options
         | Raise _ => True
         end).
    { destruct (truthy recurring); [|eexists; split; [done | apply list_elem_of_here]].
      case_bool_decide; eexists; (split; [done|]); [|done].
      by apply list_elem_of_further. }
    destruct Hrec as (r & Hrw & Hr'). rewrite Hrw in Hk. clear Hrw.
    destruct r as [rec|e]; [|left; exists e; congruence].
    destruct (truthy time2) eqn:Ht2; simpl in Hk;
      [|left; exists IncompleteReminder; unfold raise in Hk; congruence].
    case_bool_decide as Hnames; simpl in Hk;
      [left; exists IncompleteReminder; unfold raise in Hk; congruence|].
    destruct (truthy content1) eqn:Hc; simpl in Hk;
      [|left; exists IncompleteReminder; unfold raise in Hk; congruence].
    right. eexists. split.
    { unfold bind, reads, modify, Reminder.from_id, reads in Hk. simpl in Hk.
      rewrite get_id_insert_doc in Hk. simpl in Hk. symmetry. exact Hk. }
    simpl. destruct (Hr eq_refl) as (Ht1 & dt & Hdt).
    split_and!; try done.
    - by exists dt.
    - destruct time2 as [[|c s]|]; done.
    - destruct content1 as [[|c s]|]; done.
    - intros Hno. destruct (Hplain Hno) as (-> & -> & ->). done. }
  destruct (truthy_id task_id) eqn:Hid.
  - unfold bind at 1 in Hnew. unfold bind at 1 in Hnew.
    unfold Task.from_id at 1 in Hnew. unfold reads at 1 in Hnew.
    destruct (get_id (default 0%nat task_id) (tasks db)) as [k|] eqn:Hk.
    + cbn [fmap option_fmap option_map] in Hnew. unfold ret at 1 in Hnew.
      set (task := Task.init (default 0%nat task_id) k) in *.
      refine (Hrest
                (if negb (truthy time) && truthy (Task.deadline task)
                 then Some (default "" (Task.deadline task) +:+ " 10:00") else time)
                (if negb (bool_decide (Task.name task ∈ given))
                 then Task.name task :: given else given)
                (if negb (truthy content) then Some (Task.content task) else content)
                _ _ dbx rx Hnew); [|done].
      intros _. exists task. split.
      { unfold Task.from_id, reads. by rewrite Hk. }
      case_bool_decide; simpl; [done | apply list_elem_of_here].
    + left. eexists. symmetry. exact Hnew.
  - unfold bind at 1 in Hnew. unfold ret at 1 in Hnew.
    refine (Hrest time given content _ _ dbx rx Hnew); done.
Qed.

(** A refused [new_reminder] leaves the store as it is. *)
Theorem new_reminder_refusal_keeps_store `{Dateutil} (time : option string)
    (names : list string) (recurring content : option string) (task_id : option nat)
    (db db' : DB) (e : ToDoException) :
  Reminder.new_reminder time names recurring content task_id db = (db', Raise e) ->
  db' = db.
Proof.
  intros Hnew.
  destruct (new_reminder_cases time names recurring content task_id db)
    as [(e' & He)|(doc & Hdoc & _)]; congruence.
Qed.

Lemma new_reminder_refusal_keeps_store_witness :
  fst (@Reminder.new_reminder canonical_reader (Some "2024-03-15 09:00") ["carol"] None
         (Some "lunch") None linked_store)
  = linked_store.
Proof.
  apply (@new_reminder_refusal_keeps_store canonical_reader (Some "2024-03-15 09:00")
           ["carol"] None (Some "lunch") None linked_store _ (UnknownPerson "carol")).
  vm_compute. reflexivity.
Defined.

(** What a successful [new_reminder] has made: a reminder under a new id,
    found under it, with a time in the form of [TIME_FMT], at least one
    name, a content, a recurrence among [off], [daily], [weekly], [monthly]
    and [yearly], every non-empty name that of a registered person and, when
    it is linked to a task, the task in the store and its owner among the
    names. The reminders that were there are found as before, people and
    tasks are not touched, unique ids stay unique. *)
Theorem new_reminder_creates_valid `{Dateutil} (time : option string)
    (names : list string) (recurring content : option string) (task_id : option nat)
    (db db' : DB) (created : option Reminder.t) :
  Reminder.new_reminder time names recurring content task_id db = (db', Ok created) ->
  exists r,
    created = Some r
    /\ Reminder.from_id (Reminder.doc_id r) db' = (db', Ok (Some r))
    /\ (Reminder.doc_id r ∉ ids (reminders db))
    /\ (forall j, j ∈ ids (reminders db) ->
          get_id j (reminders db') = get_id j (reminders db))
    /\ people db' = people db
    /\ tasks db' = tasks db
    /\ (wf_table (reminders db) -> wf_table (reminders db'))
    /\ (exists dt, Reminder.time r = strftime dt TIME_FMT)
    /\ Reminder.names r <> []
    /\ Reminder.content r <> ""
    /\ Reminder.recurring r ∈ "off" :: Reminder.recurring_options
    /\ (forall name, name ∈ Reminder.names r -> name <> "" ->
          exists p, Person.from_name name db' = (db', Ok (Some p)))
    /\ (forall i, Reminder.task_id r = Some i ->
          exists task, Task.from_id i db' = (db', Ok (Some task))
                       /\ Task.name task ∈ Reminder.names r).
Proof.
  intros Hnew.
  destruct (new_reminder_cases time names recurring content task_id db)
    as [(e' & He)|(doc & Hdoc & Hdt & _ & Hnames & Hcontent & Hrec & Hknown & Hlink
                   & Htask & _)]; [congruence|].
  rewrite Hdoc in Hnew. injection Hnew as <- <-.
  eexists. split; [done|]. simpl. split_and!; try done.
  - unfold Reminder.from_id, reads. simpl. by rewrite get_id_insert_doc.
  - apply next_id_fresh.
  - intros j Hj. by apply get_id_insert_doc_old.
  - apply wf_insert_doc.
  - intros name Hin Hne. destruct (Hknown name Hin Hne) as [p Hp].
    exists p. rewrite from_name_effect in *. simpl. congruence.
  - intros i Hi. rewrite Hlink in Hi.
    destruct (truthy_id task_id) eqn:Hid; [|done].
    destruct (Htask eq_refl) as (task & Hfrom & Hin).
    rewrite Hi in Hfrom. simpl in Hfrom.
    exists task. split; [|done].
    unfold Task.from_id, reads in *. simpl. congruence.
Qed.

Lemma new_reminder_creates_valid_witness :
  let created := snd (@Reminder.new_reminder canonical_reader (Some "2024-03-15 09:00")
                        ["Alice"] (Some "Weekly") (Some "team lunch") None linked_store) in
  let db' := fst (@Reminder.new_reminder canonical_reader (Some "2024-03-15 09:00")
                    ["Alice"] (Some "Weekly") (Some "team lunch") None linked_store) in
  exists r,
    Some {| Reminder.doc_id := 2; Reminder.time := "2024-03-15 09:00:00";
            Reminder.names := ["alice"]; Reminder.recurring := "weekly";
            Reminder.content := "team lunch"; Reminder.task_id := None |} = Some r
    /\ Reminder.from_id (Reminder.doc_id r) db' = (db', Ok (Some r))
    /\ (Reminder.doc_id r ∉ ids (reminders linked_store))
    /\ (forall j, j ∈ ids (reminders linked_store) ->
          get_id j (reminders db') = get_id j (reminders linked_store))
    /\ people db' = people linked_store
    /\ tasks db' = tasks linked_store
    /\ (wf_table (reminders linked_store) -> wf_table (reminders db'))
    /\ (exists dt, Reminder.time r = strftime dt TIME_FMT)
    /\ Reminder.names r <> []
    /\ Reminder.content r <> ""
    /\ Reminder.recurring r ∈ "off" :: Reminder.recurring_options
    /\ (forall name, name ∈ Reminder.names r -> name <> "" ->
          exists p, Person.from_name name db' = (db', Ok (Some p)))
    /\ (forall i, Reminder.task_id r = Some i ->
          exists task, Task.from_id i db' = (db', Ok (Some task))
                       /\ Task.name task ∈ Reminder.names r).
Proof.
  intros created db'.
  apply (@new_reminder_creates_valid canonical_reader (Some "2024-03-15 09:00")
           ["Alice"] (Some "Weekly") (Some "team lunch") None linked_store db').
  vm_compute. reflexivity.
Defined.

(** Without a task, a reminder is only made when both a time and a content
    are given: otherwise [new_reminder] raises and leaves the store as it
    is. *)
Theorem new_reminder_needs_time_and_content `{Dateutil} (time : option string)
    (names : list string) (recurring content : option string) (task_id : option nat)
    (db : DB) :
  truthy_id task_id = false ->
  truthy time = false \/ truthy content = false ->
  exists e, Reminder.new_reminder time names recurring content task_id db = (db, Raise e).
Proof.
  intros Hid Hmissing.
  destruct (new_reminder_cases time names recurring content task_id db)
    as [He|(doc & _ & _ & _ & _ & _ & _ & _ & _ & _ & Hplain)]; [done|].
  destruct (Hplain Hid) as (Ht & Hc & _). destruct Hmissing; congruence.
Qed.

Lemma new_reminder_needs_time_and_content_witness :
  exists e,
    @Reminder.new_reminder canonical_reader None ["alice"] None None None linked_store
    = (linked_store, Raise e).
Proof.
  apply (@new_reminder_needs_time_and_content canonical_reader None ["alice"] None None None
           linked_store).
  - reflexivity.
  - left. reflexivity.
Defined.

(** [Reminder.remove_reminder] in one step. *)
Lemma remove_reminder_effect (reminder_id : nat) (db : DB) :
  Reminder.remove_reminder reminder_id db
  = (set_reminders (remove_id reminder_id) db,
     Ok ((fun d => Reminder.init (reminder_id, d)) <$> get_id reminder_id (reminders db))).
Proof.
  unfold Reminder.remove_reminder, Reminder.from_id, bind, reads, modify, ret.
  destruct db as [ppl tsk rem]. simpl.
  destruct (get_id reminder_id rem) as [d|] eqn:Hg; simpl; [done|].
  unfold set_reminders. simpl. rewrite remove_id_fresh; [done|].
  by apply get_id_None.
Qed.

(** Removing the reminder that has just been made gives the store back as
    it was, and returns the reminder. *)
Theorem new_reminder_then_remove_reminder `{Dateutil} (time : option string)
    (names : list string) (recurring content : option string) (task_id : option nat)
    (db db' : DB) (r : Reminder.t) :
  Reminder.new_reminder time names recurring content task_id db = (db', Ok (Some r)) ->
  Reminder.remove_reminder (Reminder.doc_id r) db' = (db, Ok (Some r)).
Proof.
  intros Hnew.
  destruct (new_reminder_cases time names recurring content task_id db)
    as [(e' & He)|(doc & Hdoc & _)]; [congruence|].
  rewrite Hdoc in Hnew. injection Hnew as <- <-.
  rewrite remove_reminder_effect. simpl.
  rewrite get_id_insert_doc. destruct db as [ppl tsk rem]. unfold set_reminders. simpl.
  by rewrite remove_id_insert_doc.
Qed.

Lemma new_reminder_then_remove_reminder_witness :
  Reminder.remove_reminder 2
    (fst (@Reminder.new_reminder canonical_reader (Some "2024-03-15 09:00") ["Alice"]
            None (Some "team lunch") None linked_store))
  = (linked_store,
     Ok (Some {| Reminder.doc_id := 2; Reminder.time := "2024-03-15 09:00:00";
                 Reminder.names := ["alice"]; Reminder.recurring := "off";
                 Reminder.content := "team lunch"; Reminder.task_id := None |})).
Proof.
  apply (@new_reminder_then_remove_reminder canonical_reader (Some "2024-03-15 09:00")
           ["Alice"] None (Some "team lunch") None linked_store
           (fst (@Reminder.new_reminder canonical_reader (Some "2024-03-15 09:00") ["Alice"]
                   None (Some "team lunch") None linked_store))
           {| Reminder.doc_id := 2; Reminder.time := "2024-03-15 09:00:00";
              Reminder.names := ["alice"]; Reminder.recurring := "off";
              Reminder.content := "team lunch"; Reminder.task_id := None |}).
  vm_compute. reflexivity.
Defined.

(** [remove_reminder] removes one reminder: it returns the reminder stored
    under the id, or nothing when there is none; afterwards the id is not
    found and a second call returns nothing and changes nothing; the
    reminders under other ids are found as before; people and tasks are not
    touched. *)
Theorem remove_reminder_removes_one (reminder_id : nat) (db : DB) :
  let db' := fst (Reminder.remove_reminder reminder_id db) in
  snd (Reminder.remove_reminder reminder_id db) = snd (Reminder.from_id reminder_id db)
  /\ Reminder.from_id reminder_id db' = (db', Ok None)
  /\ Reminder.remove_reminder reminder_id db' = (db', Ok None)
  /\ (forall j, j <> reminder_id -> get_id j (reminders db') = get_id j (reminders db))
  /\ people db' = people db
  /\ tasks db' = tasks db.
Proof.
  rewrite !remove_reminder_effect. simpl. split_and!; try done.
  - unfold Reminder.from_id, reads. simpl. by rewrite get_id_remove_id_same.
  - rewrite remove_reminder_effect. simpl. rewrite get_id_remove_id_same. simpl.
    destruct db as [ppl tsk rem]. unfold set_reminders. simpl. by rewrite remove_id_idem.
  - intros j Hj. by apply get_id_remove_id_other.
Qed.

(** ** The reminders of a person *)

Lemma existsb_singleton (name : string) (l : list string) :
  existsb (fun e => bool_decide (e ∈ [name])) l = bool_decide (name ∈ l).
Proof.
  induction l as [|e l IH]; cbn [existsb].
  - symmetry. apply bool_decide_eq_false, not_elem_of_nil.
  - rewrite IH. destruct (decide (e = name)) as [->|Hne].
    + rewrite bool_decide_true by apply list_elem_of_here. simpl.
      by rewrite bool_decide_true by apply list_elem_of_here.
    + rewrite (bool_decide_false (e ∈ [name])) by (by rewrite list_elem_of_singleton).
      simpl. apply bool_decide_ext. rewrite elem_of_cons.
      split; [by right | intros [Heq|Hin]; [by symmetry in Heq | done]].
Qed.

Lemma Reminder_document_names_any (name : string) (r : reminder_doc) :
  Query_any "names" [name] (Reminder_document r) = bool_decide (name ∈ reminder_names r).
Proof.
  unfold Query_any, Reminder_document.
  destruct (reminder_task_id r); simplify_map_eq; apply existsb_singleton.
Qed.

Lemma Person_reminders_effect (self : Person.t) (db : DB) :
  Person_reminders self db
  = (db, Ok (map Reminder.init
                 (search (fun r => bool_decide (Person.name self ∈ reminder_names r))
                         (reminders db)))).
Proof.
  unfold Person_reminders, reads, search. do 3 f_equal.
  apply List.filter_ext. intros [i r]. apply Reminder_document_names_any.
Qed.

(** [Person.reminders] lists reminders that name the person, and only
    those; after a reminder has been made, the list of a person it names
    holds the new reminder and the reminders that were there, each as often
    as before and nothing else, and the list of a person it does not name
    is as before. *)
Theorem new_reminder_is_listed `{Dateutil} (time : option string)
    (names : list string) (recurring content : option string) (task_id : option nat)
    (db db' : DB) (r : Reminder.t) (self : Person.t) :
  Reminder.new_reminder time names recurring content task_id db = (db', Ok (Some r)) ->
  exists before after,
    Person_reminders self db = (db, Ok before)
    /\ Forall (fun r' => Person.name self ∈ Reminder.names r') before
    /\ Person_reminders self db' = (db', Ok after)
    /\ (if bool_decide (Person.name self ∈ Reminder.names r)
        then after ≡ₚ r :: before else after = before).
Proof.
  intros Hnew.
  destruct (new_reminder_cases time names recurring content task_id db)
    as [(e' & He)|(doc & Hdoc & _)]; [congruence|].
  rewrite Hdoc in Hnew. injection Hnew as <- <-.
  do 2 eexists. split; [apply Person_reminders_effect|]. split; [|split].
  - apply Forall_forall. intros r' Hin.
    apply list_elem_of_fmap in Hin as ([i d] & -> & Hin).
    unfold search in Hin. apply list_elem_of_In, List.filter_In in Hin as [_ Hc].
    simpl in *. by apply bool_decide_eq_true in Hc.
  - apply Person_reminders_effect.
  - simpl. unfold insert_doc, search.
    rewrite List.filter_app, map_app. simpl.
    destruct (bool_decide _); simpl.
    + symmetry. apply Permutation_cons_append.
    + by rewrite app_nil_r.
Qed.

Lemma new_reminder_is_listed_witness :
  let db' := fst (@Reminder.new_reminder canonical_reader (Some "2024-03-15 09:00") ["Alice"]
                    None (Some "team lunch") None linked_store) in
  let r := {| Reminder.doc_id := 2; Reminder.time := "2024-03-15 09:00:00";
              Reminder.names := ["alice"]; Reminder.recurring := "off";
              Reminder.content := "team lunch"; Reminder.task_id := None |} in
  exists before after,
    Person_reminders alice linked_store = (linked_store, Ok before)
    /\ Forall (fun r' => Person.name alice ∈ Reminder.names r') before
    /\ Person_reminders alice db' = (db', Ok after)
    /\ (if bool_decide (Person.name alice ∈ Reminder.names r)
        then after ≡ₚ r :: before else after = before).
Proof.
  intros db' r.
  apply (@new_reminder_is_listed canonical_reader (Some "2024-03-15 09:00") ["Alice"]
           None (Some "team lunch") None linked_store db' r alice).
  vm_compute. reflexivity.
Defined.

(** ** More on the scheduler *)

Section Scheduler.
Context `{Dateutil}.
Variable dt_now : datetime.

Lemma set_new_time_frame (self : nat) (time : string) (σ : Reminder.poll_state) :
  people (Reminder.store (fst (Reminder.set_new_time self time σ)))
  = people (Reminder.store σ)
  /\ tasks (Reminder.store (fst (Reminder.set_new_time self time σ)))
     = tasks (Reminder.store σ).
Proof.
  unfold Reminder.set_new_time.
  destruct (datetime_from_string_format time TIME_FMT); [|done].
  by destruct (Reminder.heap σ !! self).
Qed.

Lemma poll_body_frame (now : string) (reminder : nat) (σ : Reminder.poll_state) :
  people (Reminder.store (fst (Reminder.poll_body dt_now now reminder σ)))
  = people (Reminder.store σ)
  /\ tasks (Reminder.store (fst (Reminder.poll_body dt_now now reminder σ)))
     = tasks (Reminder.store σ).
Proof.
  unfold Reminder.poll_body.
  destruct (Reminder.heap σ !! reminder) as [obj|]; [|done].
  destruct (String.ltb _ _); [|done].
  destruct (datetime_from_string _) as [next_time|e]; [|done].
  repeat match goal with
         | |- context [String.eqb (Reminder.recurring obj) ?s] =>
             destruct (String.eqb (Reminder.recurring obj) s);
             [match goal with
              | |- context [Reminder.set_new_time ?a ?t ?s'] =>
                  apply (set_new_time_frame a t s')
              end|]
         end.
  rewrite remove_reminder_effect. done.
Qed.

Lemma poll_loop_frame (now : string) (refs : list nat) :
  forall σ : Reminder.poll_state,
    people (Reminder.store (fst (Reminder.poll_loop dt_now now refs σ)))
    = people (Reminder.store σ)
    /\ tasks (Reminder.store (fst (Reminder.poll_loop dt_now now refs σ)))
       = tasks (Reminder.store σ).
Proof.
  induction refs as [|reminder refs IH]; intros σ; simpl; [done|].
  pose proof (poll_body_frame now reminder σ) as [Hp Ht].
  destruct (Reminder.poll_body dt_now now reminder σ) as [σ' [[]|e]]; simpl in *.
  - destruct (IH σ') as [Hp' Ht']. split; congruence.
  - done.
Qed.

(** A poll touches neither the people nor the tasks, whether it completes
    or raises, in any store. *)
Theorem update_reminders_keeps_people_and_tasks (db : DB) :
  people (fst (Reminder.update_reminders dt_now db)) = people db
  /\ tasks (fst (Reminder.update_reminders dt_now db)) = tasks db.
Proof.
  unfold Reminder.update_reminders.
  match goal with
  | |- context [Reminder.poll_loop ?d ?n ?l ?s] =>
      pose proof (poll_loop_frame n l s) as [Hp Ht];
      destruct (Reminder.poll_loop d n l s) as [σ' [[]|e]]
  end; done.
Qed.

Lemma sweep_ids_sublist (rows : table reminder_doc) :
  ids (sweep dt_now rows).1.1 `sublist_of` ids rows.
Proof.
  induction rows as [|[i d] rows IH]; simpl; [done|].
  destruct (verdict_of dt_now d); simpl;
    try (destruct (sweep dt_now rows) as [[t shown] e]; simpl in *).
  - by apply sublist_skip.
  - by apply sublist_cons.
  - by apply sublist_skip.
  - done.
Qed.

Lemma sweep_wf (rows : table reminder_doc) :
  wf_table rows -> wf_table (sweep dt_now rows).1.1.
Proof.
  unfold wf_table. intros Hwf. exact (sublist_NoDup _ _ Hwf (sweep_ids_sublist rows)).
Qed.

(** A poll makes no document and moves none: the ids left in the table
    are, in order, among those that were there, and stay unique. *)
Theorem update_reminders_keeps_ids (db : DB) :
  wf_table (reminders db) ->
  ids (reminders (fst (Reminder.update_reminders dt_now db))) `sublist_of` ids (reminders db)
  /\ wf_table (reminders (fst (Reminder.update_reminders dt_now db))).
Proof.
  intros Hwf. rewrite update_reminders_sweep by done. simpl.
  pose proof (sweep_ids_sublist (reminders db)) as Hsub.
  split; [done|]. unfold wf_table. by eapply sublist_NoDup.
Qed.

Lemma sweep_keeps (rows : table reminder_doc) (i : nat) (d : reminder_doc) :
  (i, d) ∈ rows -> verdict_of dt_now d = Keep -> (i, d) ∈ (sweep dt_now rows).1.1.
Proof.
  intros Hin Hkeep. induction rows as [|[j d'] rows IH]; [by apply elem_of_nil in Hin|].
  simpl. apply elem_of_cons in Hin as [[= <- <-]|Hin].
  - rewrite Hkeep. destruct (sweep dt_now rows) as [[t shown] e]. apply list_elem_of_here.
  - specialize (IH Hin).
    destruct (verdict_of dt_now d'); simpl;
      try (destruct (sweep dt_now rows) as [[t shown] e]; simpl in *).
    + by apply list_elem_of_further.
    + done.
    + by apply list_elem_of_further.
    + by apply list_elem_of_further.
Qed.

(** A reminder that is not due is left as it is by a poll, whether the
    poll completes or raises, and is not in the list a poll returns. Its
    [time] is not even read. *)
Theorem update_reminders_keeps_not_due (db : DB) (i : nat) (d : reminder_doc) :
  wf_table (reminders db) ->
  (i, d) ∈ reminders db ->
  due dt_now d = false ->
  let db' := fst (Reminder.update_reminders dt_now db) in
  Reminder.from_id i db' = (db', Ok (Some (Reminder.init (i, d))))
  /\ forall shown r, snd (Reminder.update_reminders dt_now db) = Ok shown ->
                     r ∈ shown -> Reminder.doc_id r <> i.
Proof.
  intros Hwf Hin Hdue db'. split.
  - unfold Reminder.from_id, reads. do 2 f_equal.
    subst db'. rewrite update_reminders_sweep by done. simpl.
    rewrite (elem_of_get_id i d); [done | by apply sweep_wf |].
    apply sweep_keeps; [done|]. by apply verdict_Keep.
  - intros shown r Hpoll Hr Hid.
    destruct (Reminder.update_reminders dt_now db) as [db1 r1] eqn:Hrun.
    simpl in Hpoll. subst r1.
    apply update_reminders_Ok in Hrun as (_ & -> & _); [|done].
    apply list_elem_of_omap in Hr as ([j d'] & Hin' & Hshown).
    apply row_shown_inv in Hshown as (Hj & Hdue' & _).
    assert (j = i) as -> by congruence.
    assert (d' = d) as ->.
    { apply (elem_of_get_id _ _ _ Hwf) in Hin, Hin'. congruence. }
    congruence.
Qed.

Lemma sweep_shown_sublist (rows : table reminder_doc) :
  map Reminder.doc_id (omap (row_shown dt_now) rows) `sublist_of` ids rows.
Proof.
  induction rows as [|[i d] rows IH]; [done|].
  rewrite omap_cons. unfold row_shown at 1. simpl.
  destruct (verdict_of dt_now d); simpl.
  - by apply sublist_cons.
  - by apply sublist_skip.
  - by apply sublist_skip.
  - by apply sublist_cons.
Qed.

(** The list a poll returns follows the order of the table and holds a
    document at most once. *)
Theorem update_reminders_in_store_order (db db' : DB) (shown : list Reminder.t) :
  wf_table (reminders db) ->
  Reminder.update_reminders dt_now db = (db', Ok shown) ->
  map Reminder.doc_id shown `sublist_of` ids (reminders db)
  /\ NoDup (map Reminder.doc_id shown).
Proof.
  intros Hwf Hpoll.
  apply update_reminders_Ok in Hpoll as (_ & -> & _); [|done].
  pose proof (sweep_shown_sublist (reminders db)) as Hsub.
  split; [done | by eapply sublist_NoDup].
Qed.

(** With no reminder due, a poll returns the empty list and leaves the
    store as it is; it cannot raise, since it reads no [time]. *)
Theorem update_reminders_nothing_due (db : DB) :
  wf_table (reminders db) ->
  (forall i d, (i, d) ∈ reminders db -> due dt_now d = false) ->
  Reminder.update_reminders dt_now db = (db, Ok []).
Proof.
  intros Hwf Hnone.
  assert (Hkeep : Forall (fun row => due dt_now (snd row) = false) (reminders db)).
  { apply Forall_forall. intros [i d] Hin. by apply (Hnone i d). }
  destruct (omap_row_after_keep dt_now _ Hkeep) as [Ha Hs].
  rewrite update_reminders_completes.
  - rewrite Ha, Hs. by destruct db.
  - done.
  - eapply Forall_impl; [exact Hkeep|]. intros [i d] Hd e. simpl in *.
    apply verdict_Keep in Hd. congruence.
Qed.

(** A recurring reminder outlives every poll that completes: it is still
    found under its id, changed in its [time] at most. *)
Theorem update_reminders_keeps_recurring (db db' : DB) (shown : list Reminder.t)
    (i : nat) (d : reminder_doc) :
  wf_table (reminders db) ->
  (i, d) ∈ reminders db ->
  reminder_recurring d ∈ Reminder.recurring_options ->
  Reminder.update_reminders dt_now db = (db', Ok shown) ->
  exists time,
    Reminder.from_id i db' = (db', Ok (Some (Reminder.with_time time (Reminder.init (i, d)))))
    /\ (due dt_now d = false -> time = reminder_time d).
Proof.
  intros Hwf Hin Hrec Hpoll.
  apply update_reminders_Ok in Hpoll as (-> & _ & Hall); [|done].
  rewrite Forall_forall in Hall. specialize (Hall _ Hin). simpl in Hall.
  unfold Reminder.from_id, reads. simpl.
  rewrite (row_after_lookup dt_now i d) by done. unfold row_after. simpl.
  destruct (verdict_of dt_now d) as [| |time|e] eqn:Hv.
  - exists (reminder_time d). split; [|done]. by destruct d.
  - exfalso. apply verdict_Delete in Hv as (_ & _ & Hoff). done.
  - exists time. split; [done|]. intros Hdue.
    apply verdict_Retime in Hv as (Hdue' & _). congruence.
  - by destruct (Hall e).
Qed.

(** A due weekly reminder after a completed poll: it holds the canonical
    form, read back once, of the first of [t], [t] + 7 days, [t] + 14 days,
    ... that is not before the clock reading. *)
Theorem weekly_reminder_catches_up (db db' : DB) (shown : list Reminder.t)
    (i : nat) (d : reminder_doc) (t : datetime) :
  wf_table (reminders db) ->
  (i, d) ∈ reminders db ->
  reminder_recurring d = "weekly" ->
  due dt_now d = true ->
  parse (reminder_time d) = Some t ->
  Reminder.update_reminders dt_now db = (db', Ok shown) ->
  exists (k : nat) (next' : datetime),
    instant dt_now <= instant (add_days t (7 * Z.of_nat k))
    /\ (forall j : nat, (j < k)%nat ->
          instant (add_days t (7 * Z.of_nat j)) < instant dt_now)
    /\ parse (strftime (add_days t (7 * Z.of_nat k)) TIME_FMT) = Some next'
    /\ Reminder.from_id i db'
       = (db', Ok (Some (Reminder.with_time (strftime next' TIME_FMT)
                                            (Reminder.init (i, d))))).
Proof.
  intros Hwf Hin Hweekly Hdue Ht Hpoll.
  destruct (recurring_reminder_catches_up dt_now db db' shown i d t 7)
    as (k & next' & Hstop & Hbefore & Hnext & Hstored); try done.
  { by rewrite Hweekly. }
  rewrite Z.mul_comm in Hstop, Hnext.
  exists k, next'. split_and!; [done | | done | done].
  intros j Hj. specialize (Hbefore j Hj). by rewrite Z.mul_comm in Hbefore.
Qed.
End Scheduler.

Lemma update_reminders_keeps_ids_witness :
  ids (reminders (fst (@Reminder.update_reminders canonical_reader noon_15_january
                         one_off_store)))
    `sublist_of` ids (reminders one_off_store)
  /\ wf_table (reminders (fst (@Reminder.update_reminders canonical_reader noon_15_january
                                 one_off_store))).
Proof.
  apply (@update_reminders_keeps_ids canonical_reader noon_15_january one_off_store).
  wf_by_evaluation.
Defined.

Lemma update_reminders_keeps_not_due_witness :
  let db' := fst (@Reminder.update_reminders canonical_reader noon_15_january
                    one_off_store) in
  Reminder.from_id 2 db'
  = (db', Ok (Some (Reminder.init
                      (2%nat, mk_reminder_doc "2024-01-16 10:00:00" ["alice"] "daily"
                                              "water the plants" None))))
  /\ forall shown r,
       snd (@Reminder.update_reminders canonical_reader noon_15_january one_off_store)
       = Ok shown ->
       r ∈ shown -> Reminder.doc_id r <> 2%nat.
Proof.
  apply (@update_reminders_keeps_not_due canonical_reader noon_15_january one_off_store 2).
  - wf_by_evaluation.
  - apply list_elem_of_further, list_elem_of_here.
  - by_evaluation.
Defined.

Lemma update_reminders_in_store_order_witness :
  map Reminder.doc_id
      [Reminder.init (1%nat, mk_reminder_doc "2024-01-14 10:00:00" ["alice"] "off"
                                             "call back" None)]
    `sublist_of` ids (reminders one_off_store)
  /\ NoDup (map Reminder.doc_id
                [Reminder.init (1%nat, mk_reminder_doc "2024-01-14 10:00:00" ["alice"] "off"
                                                       "call back" None)]).
Proof.
  apply (@update_reminders_in_store_order canonical_reader noon_15_january one_off_store
           (fst (@Reminder.update_reminders canonical_reader noon_15_january one_off_store))).
  - wf_by_evaluation.
  - by_evaluation.
Defined.

Lemma update_reminders_nothing_due_witness :
  @Reminder.update_reminders canonical_reader noon_15_january later_store
  = (later_store, Ok []).
Proof.
  apply (@update_reminders_nothing_due canonical_reader noon_15_january later_store).
  - wf_by_evaluation.
  - intros i d Hin.
    apply elem_of_cons in Hin as [[= -> ->]|Hin]; [by_evaluation|].
    apply elem_of_cons in Hin as [[= -> ->]|Hin]; [by_evaluation|].
    by apply elem_of_nil in Hin.
Defined.

Lemma update_reminders_keeps_recurring_witness :
  exists time,
    Reminder.from_id 1
      (fst (@Reminder.update_reminders canonical_reader noon_15_january daily_store))
    = (fst (@Reminder.update_reminders canonical_reader noon_15_january daily_store),
       Ok (Some (Reminder.with_time time
                   (Reminder.init
                      (1%nat, mk_reminder_doc "2024-01-15 10:00:00" ["alice"] "daily"
                                              "water the plants" None)))))
    /\ (due noon_15_january
            (mk_reminder_doc "2024-01-15 10:00:00" ["alice"] "daily" "water the plants" None)
        = false -> time = "2024-01-15 10:00:00").
Proof.
  apply (@update_reminders_keeps_recurring canonical_reader noon_15_january daily_store
           (fst (@Reminder.update_reminders canonical_reader noon_15_january daily_store))
           [{| Reminder.doc_id := 1; Reminder.time := "2024-01-16 10:00:00";
               Reminder.names := ["alice"]; Reminder.recurring := "daily";
               Reminder.content := "water the plants"; Reminder.task_id := None |}]).
  - wf_by_evaluation.
  - apply list_elem_of_here.
  - apply list_elem_of_here.
  - by_evaluation.
Defined.

Lemma weekly_reminder_catches_up_witness :
  exists (k : nat) (next' : datetime),
    instant noon_15_january
    <= instant (add_days (brussels 2023 12 25 8 0 0 0) (7 * Z.of_nat k))
    /\ (forall j : nat, (j < k)%nat ->
          instant (add_days (brussels 2023 12 25 8 0 0 0) (7 * Z.of_nat j))
          < instant noon_15_january)
    /\ @parse canonical_reader
         (strftime (add_days (brussels 2023 12 25 8 0 0 0) (7 * Z.of_nat k)) TIME_FMT)
       = Some next'
    /\ Reminder.from_id 1
         (fst (@Reminder.update_reminders canonical_reader noon_15_january weekly_store))
       = (fst (@Reminder.update_reminders canonical_reader noon_15_january weekly_store),
          Ok (Some (Reminder.with_time (strftime next' TIME_FMT)
                      (Reminder.init
                         (1%nat, mk_reminder_doc "2023-12-25 08:00:00" ["alice"] "weekly"
                                                 "bins" None))))).
Proof.
  apply (@weekly_reminder_catches_up canonical_reader noon_15_january weekly_store
           (fst (@Reminder.update_reminders canonical_reader noon_15_january weekly_store))
           [{| Reminder.doc_id := 1; Reminder.time := "2024-01-22 08:00:00";
               Reminder.names := ["alice"]; Reminder.recurring := "weekly";
               Reminder.content := "bins"; Reminder.task_id := None |}]).
  - wf_by_evaluation.
  - apply list_elem_of_here.
  - reflexivity.
  - by_evaluation.
  - by_evaluation.
  - by_evaluation.
Defined.

(** ** The catch-up loop, once more *)

(** The catch-up loop keeps the time of day and the zone offset of the
    reminder, never stops before the clock reading, and leaves a time that
    is not before the clock reading as it is. *)
Theorem while_loop_keeps_time_of_day (days : Z) (dt_now next_time : datetime) :
  1 <= days ->
  let next := Reminder.while_loop days dt_now next_time in
  strftime_clock next = strftime_clock next_time
  /\ utcoffset next = utcoffset next_time
  /\ datetime_lt next dt_now = false
  /\ (datetime_lt next_time dt_now = false -> next = next_time).
Proof.
  intros Hdays next. subst next.
  destruct (while_exits days dt_now next_time Hdays) as (k & -> & Hstop & Hbefore).
  split_and!.
  - unfold strftime_clock, add_days. simpl.
    by rewrite Z.mod_add by (unfold DAY, SECOND; lia).
  - done.
  - unfold datetime_lt. by apply Z.ltb_ge.
  - unfold datetime_lt. intros Hnot. apply Z.ltb_ge in Hnot.
    destruct k as [|k]; [by rewrite add_days_0|].
    specialize (Hbefore 0%nat ltac:(lia)). simpl in Hbefore.
    rewrite add_days_0 in Hbefore. lia.
Qed.

Lemma while_loop_keeps_time_of_day_witness :
  let next := Reminder.while_loop 7 noon_15_january (brussels 2023 12 25 8 0 0 0) in
  strftime_clock next = strftime_clock (brussels 2023 12 25 8 0 0 0)
  /\ utcoffset next = utcoffset (brussels 2023 12 25 8 0 0 0)
  /\ datetime_lt next noon_15_january = false
  /\ (datetime_lt (brussels 2023 12 25 8 0 0 0) noon_15_january = false ->
      next = brussels 2023 12 25 8 0 0 0).
Proof.
  apply (while_loop_keeps_time_of_day 7 noon_15_january (brussels 2023 12 25 8 0 0 0)).
  lia.
Defined.
